(** * StreamStatus: a shallow embedding of [StreamStatus.go]

    The program receives Twitch EventSub webhooks and toggles a status row
    of a markdown index kept in a git repository.  Go strings are byte
    sequences; they are modelled as [list ascii] (one [ascii] per byte, the
    UTF-8 encoding of the source literals included).

    The first part embeds the program: the string functions it calls, the
    status updater, and the methods, the handler and [main] in a monad
    that threads the shared [StreamersRepo] and the state of the world,
    records a trace, and can end in [os.Exit] or a panic.  The second part
    proves the properties. *)

From Stdlib Require Import String Ascii Bool Arith ZArith Lia List.
Import ListNotations.

Local Open Scope list_scope.
Local Open Scope bool_scope.

(** ** Go strings *)

Definition gostr := list ascii.

(** A source literal, byte for byte. *)
Definition lit (s : string) : gostr := list_ascii_of_string s.

Definition gostr_eqb (a b : gostr) : bool :=
  if list_eq_dec ascii_dec a b then true else false.

(** ** The parts of Go's [strings] package the program calls *)

Module strings.

(** [strings.HasPrefix(s, prefix)]. *)
Fixpoint HasPrefix (s prefix : gostr) {struct prefix} : bool :=
  match prefix, s with
  | [], _ => true
  | _ :: _, [] => false
  | a :: prefix', b :: s' => Ascii.eqb a b && HasPrefix s' prefix'
  end.

(** [strings.Index(s, substr)]: the byte offset of the first instance of
    [substr] in [s]; Go's [-1] is [None]. *)
Fixpoint Index (s substr : gostr) : option nat :=
  if HasPrefix s substr then Some 0
  else match s with
       | [] => None
       | _ :: s' => option_map S (Index s' substr)
       end.

(** [strings.Contains(s, substr)] is [Index(s, substr) >= 0]. *)
Definition Contains (s substr : gostr) : bool :=
  match Index s substr with Some _ => true | None => false end.

(** The loop of [strings.Replace] for a non-empty [old]: [k] replacements
    are still allowed. *)
Fixpoint replaceLoop (k : nat) (s old new : gostr) : gostr :=
  match k with
  | 0 => s
  | S k' =>
      match Index s old with
      | None => s
      | Some j =>
          firstn j s ++ new ++ replaceLoop k' (skipn (j + length old) s) old new
      end
  end.

(** [strings.Replace(s, old, new, n)]: the first [n] non-overlapping
    instances of [old] replaced by [new]; [n < 0] lifts the limit.  Every
    call site passes a non-empty [old] (a formatted marker), the case the
    loop above covers. *)
Definition Replace (s old new : gostr) (n : Z) : gostr :=
  if gostr_eqb old new || (n =? 0)%Z then s
  else if (n <? 0)%Z then replaceLoop (S (length s)) s old new
  else replaceLoop (Z.to_nat n) s old new.

(** The loop of [genSplit] for a non-empty separator: at most [k] cuts. *)
Fixpoint splitLoop (k : nat) (s sep : gostr) : list gostr :=
  match k with
  | 0 => [s]
  | S k' =>
      match Index s sep with
      | None => [s]
      | Some m => firstn m s :: splitLoop k' (skipn (m + length sep) s) sep
      end
  end.

(** [genSplit(s, sep, 0, n)] for a non-empty [sep]. *)
Definition genSplit (s sep : gostr) (n : Z) : list gostr :=
  if (n =? 0)%Z then []
  else if (n <? 0)%Z then splitLoop (length s) s sep
  else splitLoop (Nat.min (Z.to_nat n) (S (length s)) - 1) s sep.

Definition Split (s sep : gostr) : list gostr := genSplit s sep (-1).
Definition SplitN (s sep : gostr) (n : Z) : list gostr := genSplit s sep n.

(** [strings.ToLower]: the ASCII fast path is the library's own code; for
    a string with a byte outside ASCII the library maps [unicode.ToLower]
    over the runes, which consults the Unicode case tables: that mapping
    is the parameter [mapUnicodeToLower]. *)
Definition isUpperASCII (c : ascii) : bool :=
  (65 <=? nat_of_ascii c) && (nat_of_ascii c <=? 90).

Definition lowerASCII (c : ascii) : ascii :=
  if isUpperASCII c then ascii_of_nat (nat_of_ascii c + 32) else c.

Definition isASCII (s : gostr) : bool :=
  forallb (fun c => nat_of_ascii c <? 128) s.

Definition ToLower (mapUnicodeToLower : gostr -> gostr) (s : gostr) : gostr :=
  if isASCII s then
    if existsb isUpperASCII s then map lowerASCII s else s
  else mapUnicodeToLower s.

End strings.

(** ** Errors and [fmt.Sprintf] *)

(** A Go [error] value: the program's own [*NoChangeNeededError], or an
  error made by a library, known by the name of its dynamic type and its
  message. *)
Inductive error : Type :=
| NoChangeNeededError (err : gostr)
| LibError (typ msg : gostr).

(** The method [Error() string]. *)
Definition Error (e : error) : gostr :=
match e with
| NoChangeNeededError err => err
| LibError _ msg => msg
end.

(** What [%T] prints. *)
Definition typeName (e : error) : gostr :=
match e with
| NoChangeNeededError _ => lit "*main.NoChangeNeededError"
| LibError typ _ => typ
end.

Inductive arg : Type :=
| AStr (s : gostr)
| ABool (b : bool)
| AErr (e : error).

Module fmt.

Definition verb_s (a : arg) : gostr :=
  match a with
  | AStr s => s
  | ABool true => lit "%!s(bool=true)"
  | ABool false => lit "%!s(bool=false)"
  | AErr e => Error e
  end.

Definition verb_v (a : arg) : gostr :=
  match a with
  | AStr s => s
  | ABool true => lit "true"
  | ABool false => lit "false"
  | AErr e => Error e
  end.

Definition verb_T (a : arg) : gostr :=
  match a with
  | AStr _ => lit "string"
  | ABool _ => lit "bool"
  | AErr e => typeName e
  end.

(** [fmt.Sprintf] for the verbs the program uses: [%s] (also written
    [%+s]: for a string or an error the flag changes nothing), [%v] and
    [%T].  [inVerb] says that a [%] has been read and its verb is awaited.
    Other verbs are outside the model and are copied as they stand. *)
Definition render (v : ascii) : option (arg -> gostr) :=
  if Ascii.eqb v "s" then Some verb_s
  else if Ascii.eqb v "v" then Some verb_v
  else if Ascii.eqb v "T" then Some verb_T
  else None.

Fixpoint doPrintf (inVerb : bool) (format : gostr) (args : list arg) : gostr :=
  match format with
  | [] => if inVerb then lit "%!(NOVERB)" else []
  | c :: rest =>
      if inVerb then
        if Ascii.eqb c "+" then doPrintf true rest args
        else
          match render c, args with
          | Some f, a :: args' => f a ++ doPrintf false rest args'
          | Some _, [] => lit "%!" ++ [c] ++ lit "(MISSING)" ++ doPrintf false rest []
          | None, _ => "%"%char :: c :: doPrintf false rest args
          end
      else if Ascii.eqb c "%" then doPrintf true rest args
      else c :: doPrintf false rest args
  end.

Definition Sprintf (format : gostr) (args : list arg) : gostr :=
  doPrintf false format args.

(** [fmt.Sprint(err)]. *)
Definition Sprint (e : error) : gostr := Error e.

End fmt.


(** ** The data of the program *)

(** [httpauth.BasicAuth]. *)
Record BasicAuth : Type := mkBasicAuth {
  Username : gostr;
  Password : gostr
}.

(** [helix.EventSubSubscription]: the program reads its [Type] only. *)
Record EventSubSubscription : Type := mkEventSubSubscription {
  Type_ : gostr
}.

(** [eventSubNotification] holds the decoded webhook request. *)
Record eventSubNotification : Type := mkEventSubNotification {
  Challenge : gostr;
  Event : gostr;
  Subscription : EventSubSubscription
}.

(** Of [helix.EventSubStreamOfflineEvent] and
    [helix.EventSubStreamOnlineEvent] the program reads this field. *)
Record EventSubStreamEvent : Type := mkEventSubStreamEvent {
  BroadcasterUserName : gostr
}.

(** The option structs of go-git, with the fields the program sets. *)
Record CloneOptions : Type := mkCloneOptions {
  clone_Auth : BasicAuth;
  clone_URL : gostr
}.

Record PullOptions : Type := mkPullOptions {
  pull_Force : bool;
  pull_ReferenceName : gostr;
  pull_RemoteName : gostr
}.

Record PushOptions : Type := mkPushOptions {
  push_RemoteName : gostr;
  push_Auth : BasicAuth
}.

(** ** The libraries and the world outside the process

    The file system, the network and the git library are not part of the
    program.  Each call into them is a function of the state of the world,
    given by the Go signature of the call: it returns its values, an
    [error] that is [None] for Go's [nil], and the world after the call.
    Pointers into the library ([*git.Repository], [*git.Worktree]) are
    opaque handles, [nilRepository] being the nil pointer.  A call that
    would panic inside a library is outside the model, and so is the
    interleaving of two handlers: requests are handled one after the
    other. *)
Class Lib : Type := {
  World : Type;
  RepositoryPtr : Type;
  nilRepository : RepositoryPtr;
  WorktreePtr : Type;
  Reference : Type;
  Hash : Type;
  CommitObj : Type;
  Time : Type;
  HeaderT : Type;
  BodyT : Type;
  (* strings/unicode *)
  mapUnicodeToLower : gostr -> gostr;
  (* net/http, encoding/json, helix *)
  ioutil_ReadAll : BodyT -> gostr * option error;
  Header_Get : HeaderT -> gostr -> gostr;
  helix_VerifyEventSubNotification : gostr -> HeaderT -> gostr -> bool;
  json_Decode_notification : gostr -> eventSubNotification * option error;
  json_Decode_offline : gostr -> EventSubStreamEvent;
  json_Decode_online : gostr -> EventSubStreamEvent;
  (* os, io/ioutil, time *)
  os_Getenv : gostr -> World -> gostr;
  os_ReadFile : gostr -> World -> World * (gostr * option error);
  ioutil_WriteFile : gostr -> gostr -> Z -> World -> World * option error;
  time_Now : World -> Time;
  (* go-git *)
  git_PlainClone : gostr -> bool -> CloneOptions -> World -> World * (RepositoryPtr * option error);
  git_PlainOpen : gostr -> World -> World * (RepositoryPtr * option error);
  Repository_Worktree : RepositoryPtr -> World -> World * (WorktreePtr * option error);
  Repository_Head : RepositoryPtr -> World -> World * (Reference * option error);
  Repository_CommitObject : RepositoryPtr -> Hash -> World -> World * (CommitObj * option error);
  Repository_Push : RepositoryPtr -> PushOptions -> World -> World * option error;
  Worktree_Pull : WorktreePtr -> PullOptions -> World -> World * option error;
  Worktree_Add : WorktreePtr -> gostr -> World -> World * option error;
  Worktree_Commit : WorktreePtr -> gostr -> gostr -> gostr -> Time -> World -> World * option error;
  Reference_Hash : Reference -> Hash;
  Commit_String : CommitObj -> gostr
}.

(** [StreamersRepo] holds the data of one status update; the handler works
    on one value of it, shared by all requests. *)
Record StreamersRepo {L : Lib} : Type := mkStreamersRepo {
  auth : BasicAuth;
  indexFilePath : gostr;
  indexMdText : gostr;
  online : bool;
  repo : RepositoryPtr;
  repoPath : gostr;
  streamer : gostr;
  url : gostr
}.

(** [http.Request], as far as the handler reads it. *)
Record Request {L : Lib} : Type := mkRequest {
  Header : HeaderT;
  Body : BodyT
}.

(** ** The status updater *)

Section Updater.
Context {L : Lib}.

Definition set_indexMdText (s : StreamersRepo) (text : gostr) : StreamersRepo :=
  mkStreamersRepo L (auth s) (indexFilePath s) text (online s) (repo s)
    (repoPath s) (streamer s) (url s).

Definition set_repo (s : StreamersRepo) (r : RepositoryPtr) : StreamersRepo :=
  mkStreamersRepo L (auth s) (indexFilePath s) (indexMdText s) (online s) r
    (repoPath s) (streamer s) (url s).

Definition set_event (s : StreamersRepo) (name : gostr) (on : bool) : StreamersRepo :=
  mkStreamersRepo L (auth s) (indexFilePath s) (indexMdText s) on (repo s)
    (repoPath s) name (url s).

(** The two row markers, as the source formats them. *)
Definition offlineMarker (name : gostr) : gostr :=
  fmt.Sprintf (lit "&nbsp; | `%s`") [AStr name].

Definition onlineMarker (name : gostr) : gostr :=
  fmt.Sprintf (lit "🟢 | `%s`") [AStr name].

Definition noChangeNeeded (s : StreamersRepo) : error :=
  NoChangeNeededError
    (fmt.Sprintf (lit "no change needed for: %s, online: %v")
       [AStr (streamer s); ABool (online s)]).

(** [updateStreamStatus] toggles the streamer's row in [indexMdText]; it
    returns the object after the call and the error. *)
Definition updateStreamStatus (s : StreamersRepo) : StreamersRepo * option error :=
  let streamerLower := strings.ToLower mapUnicodeToLower (streamer s) in
  if online s then
    let offlineTextSearch :=
      if strings.Contains (indexMdText s) (streamer s)
      then offlineMarker (streamer s)
      else offlineMarker streamerLower in
    let onlineText := onlineMarker (streamer s) in
    let onlineTextLower := onlineMarker streamerLower in
    if strings.Contains (indexMdText s) onlineText
       || strings.Contains (indexMdText s) onlineTextLower
    then (s, Some (noChangeNeeded s))
    else
      (set_indexMdText s
         (strings.Replace (indexMdText s) offlineTextSearch onlineText 1),
       None)
  else
    let onlineTextSearch :=
      if strings.Contains (indexMdText s) (streamer s)
      then onlineMarker (streamer s)
      else onlineMarker streamerLower in
    let offlineText := offlineMarker (streamer s) in
    let offlineTextOnline := offlineMarker streamerLower in
    if strings.Contains (indexMdText s) offlineText
       || strings.Contains (indexMdText s) offlineTextOnline
    then (s, Some (noChangeNeeded s))
    else
      (set_indexMdText s
         (strings.Replace (indexMdText s) onlineTextSearch offlineText 1),
       None).

End Updater.

(** ** Effects: the trace, exits and panics *)

Inductive Level : Type := InfoLevel | WarnLevel | ErrorLevel | FatalLevel.

(** The methods of [StreamersRepo] that make up a sync cycle. *)
Inductive Method : Type :=
| M_getRepo | M_readFile | M_updateStreamStatus | M_writefile
| M_gitAdd | M_gitCommit | M_gitPush.

(** What the process does to the world, in order.  A call into a library is
    recorded with its arguments and the error it returned.  [EvReturn] is a
    ghost event: it records that a method of [StreamersRepo] returned, and
    the error it returned. *)
Inductive TraceEvent : Type :=
| EvLog (lvl : Level) (msg : gostr)
| EvRespWriteHeader (code : Z)
| EvRespWrite (data : gostr)
| EvBodyClose
| EvPlainClone (path url : gostr) (err : option error)
| EvPlainOpen (path : gostr) (err : option error)
| EvWorktree (err : option error)
| EvPull (opts : PullOptions) (err : option error)
| EvAdd (path : gostr) (err : option error)
| EvCommit (msg : gostr) (err : option error)
| EvHead (err : option error)
| EvCommitObject (err : option error)
| EvPush (remote : gostr) (err : option error)
| EvReadFile (path : gostr) (err : option error)
| EvWriteFile (path data : gostr) (perm : Z) (err : option error)
| EvReturn (m : Method) (err : option error).

Inductive PanicValue : Type :=
| IndexOutOfRange (index len : nat).

(** How a piece of code ends: it returns a value, the process exits
    ([os.Exit]), or it panics. *)
Inductive Res (A : Type) : Type :=
| Val (a : A)
| Exit (code : Z)
| Panic (p : PanicValue).

Arguments Val {A} a.
Arguments Exit {A} code.
Arguments Panic {A} p.

Section Effects.
Context {L : Lib}.

(** The state a request handler works on: the shared [StreamersRepo] and
    the world. *)
Record St : Type := mkSt {
  self : StreamersRepo;
  world : World
}.

Record Run (A : Type) : Type := mkRun {
  events : list TraceEvent;
  final : St;
  result : Res A
}.

Arguments mkRun {A} events final result.
Arguments events {A} r.
Arguments final {A} r.
Arguments result {A} r.

Definition M (A : Type) : Type := St -> Run A.

Definition ret {A} (a : A) : M A := fun st => mkRun [] st (Val a).

Definition bind {A B} (m : M A) (f : A -> M B) : M B :=
  fun st =>
    match m st with
    | mkRun evs st1 (Val a) =>
        match f a st1 with
        | mkRun evs' st2 r => mkRun (evs ++ evs') st2 r
        end
    | mkRun evs st1 (Exit c) => mkRun evs st1 (Exit c)
    | mkRun evs st1 (Panic p) => mkRun evs st1 (Panic p)
    end.

Definition emit (e : TraceEvent) : M unit := fun st => mkRun [e] st (Val tt).

Definition exit {A} (code : Z) : M A := fun st => mkRun [] st (Exit code).

Definition panic {A} (p : PanicValue) : M A := fun st => mkRun [] st (Panic p).

Definition getSelf : M StreamersRepo := fun st => mkRun [] st (Val (self st)).

Definition setSelf (s : StreamersRepo) : M unit :=
  fun st => mkRun [] (mkSt s (world st)) (Val tt).

(** A call that changes the world. *)
Definition call {A} (op : World -> World * A) : M A :=
  fun st => let (w, a) := op (world st) in mkRun [] (mkSt (self st) w) (Val a).

(** A call that only reads it. *)
Definition ask {A} (op : World -> A) : M A :=
  fun st => mkRun [] st (Val (op (world st))).

(** [a[i]] on a slice: a run-time panic when [i] is out of range. *)
Definition index {A} (a : list A) (i : nat) : M A :=
  match nth_error a i with
  | Some x => ret x
  | None => panic (IndexOutOfRange i (length a))
  end.

(** [defer]: the deferred event happens when the body returns or panics,
    not when the process exits. *)
Definition defer {A} (e : TraceEvent) (body : M A) : M A :=
  fun st =>
    match body st with
    | mkRun evs st1 (Exit c) => mkRun evs st1 (Exit c)
    | mkRun evs st1 r => mkRun (evs ++ [e]) st1 r
    end.

End Effects.

Arguments mkRun {L A} events final result.
Arguments events {L A} r.
Arguments final {L A} r.
Arguments result {L A} r.

Declare Scope go_scope.
Delimit Scope go_scope with go.
Notation "x <- m ;; k" := (bind m (fun x => k))
  (at level 61, m at next level, right associativity) : go_scope.
Notation "m ;; k" := (bind m (fun _ => k))
  (at level 61, right associativity) : go_scope.
Notation "' pat <- m ;; k" := (bind m (fun x => match x with pat => k end))
  (at level 61, pat pattern, m at next level, right associativity) : go_scope.

Local Open Scope go_scope.

(** ** Logging (logrus) *)

Definition nl : gostr := ["010"%char].

Module log.
Section Log.
Context {L : Lib}.

(** [fmt.Sprintln]'s text: the operands in their default format, a space
    between them, a newline at the end. *)
Fixpoint joinArgs (args : list arg) : gostr :=
  match args with
  | [] => []
  | [a] => fmt.verb_v a
  | a :: rest => fmt.verb_v a ++ lit " " ++ joinArgs rest
  end.

Definition Println (args : list arg) : M unit :=
  emit (EvLog InfoLevel (joinArgs args ++ nl)).

Definition Printf (format : gostr) (args : list arg) : M unit :=
  emit (EvLog InfoLevel (fmt.Sprintf format args)).

Definition Warn (msg : gostr) : M unit := emit (EvLog WarnLevel msg).

Definition Warnf (format : gostr) (args : list arg) : M unit :=
  emit (EvLog WarnLevel (fmt.Sprintf format args)).

Definition Errorf (format : gostr) (args : list arg) : M unit :=
  emit (EvLog ErrorLevel (fmt.Sprintf format args)).

End Log.
End log.

(** ** The methods of [StreamersRepo] *)

Section Program.
Context {L : Lib}.

(** A method body, with the ghost record of its return. *)
Definition method (m : Method) (body : M (option error)) : M (option error) :=
  err <- body ;;
  emit (EvReturn m err) ;;
  ret err.

(** [gitPush] pushes the repository to github. *)
Definition gitPush : M (option error) :=
  method M_gitPush (
    s <- getSelf ;;
    err <- call (Repository_Push (repo s) (mkPushOptions (lit "origin") (auth s))) ;;
    emit (EvPush (lit "origin") err) ;;
    match err with
    | Some e => ret (Some e)
    | None =>
        log.Println [AStr (lit "remote repo updated."); AStr (indexFilePath s)] ;;
        ret None
    end).

(** [getHeadCommit] gets the commit at HEAD. *)
Definition getHeadCommit : M (gostr * option error) :=
  s <- getSelf ;;
  '(ref, err) <- call (Repository_Head (repo s)) ;;
  emit (EvHead err) ;;
  match err with
  | Some e => ret ([], Some e)
  | None =>
      '(commit, err) <- call (Repository_CommitObject (repo s) (Reference_Hash ref)) ;;
      emit (EvCommitObject err) ;;
      match err with
      | Some e => ret ([], Some e)
      | None => ret (Commit_String commit, None)
      end
  end.

Definition authorName : gostr :=
  lit "🤖 STATUSS (Seriously Totally Automated Twitch Updating StreamStatus)".

Definition authorEmail : gostr :=
  lit "goproslowyo+statuss@users.noreply.github.com".

Definition commitMessage (s : StreamersRepo) : gostr :=
  if online s
  then fmt.Sprintf (lit "🟢 %s has gone online! [no ci]") [AStr (streamer s)]
  else fmt.Sprintf (lit "☠️  %s has gone offline! [no ci]") [AStr (streamer s)].

(** [gitCommit] makes a commit to the repository. *)
Definition gitCommit : M (option error) :=
  method M_gitCommit (
    s <- getSelf ;;
    '(w, err) <- call (Repository_Worktree (repo s)) ;;
    emit (EvWorktree err) ;;
    match err with
    | Some e => ret (Some e)
    | None =>
        now <- ask time_Now ;;
        err <- call (Worktree_Commit w (commitMessage s) authorName authorEmail now) ;;
        emit (EvCommit (commitMessage s) err) ;;
        match err with
        | Some e => ret (Some e)
        | None =>
            '(commit, err) <- getHeadCommit ;;
            match err with
            | Some e => ret (Some e)
            | None => log.Println [AStr commit] ;; ret None
            end
        end
    end).

(** [gitAdd] adds the index file to the repository. *)
Definition gitAdd : M (option error) :=
  method M_gitAdd (
    s <- getSelf ;;
    '(w, err) <- call (Repository_Worktree (repo s)) ;;
    emit (EvWorktree err) ;;
    match err with
    | Some e => ret (Some e)
    | None =>
        file <- index (strings.Split (indexFilePath s) (lit "/")) 1 ;;
        err <- call (Worktree_Add w file) ;;
        emit (EvAdd file err) ;;
        ret err
    end).

Definition forcedPull : PullOptions := mkPullOptions true (lit "HEAD") (lit "origin").

(** [getRepo] clones the repository, or opens and pulls the one on disk. *)
Definition getRepo : M (option error) :=
  method M_getRepo (
    s <- getSelf ;;
    directory <- index (strings.SplitN (url s) (lit "/") 5) 4 ;;
    '(repo1, err) <- call (git_PlainClone directory false (mkCloneOptions (auth s) (url s))) ;;
    emit (EvPlainClone directory (url s) err) ;;
    match err with
    | None => setSelf (set_repo s repo1) ;; ret None
    | Some e =>
        let errStr := fmt.Sprint e in
        if negb (strings.Contains errStr (lit "exists")) then ret (Some e)
        else
          '(repo2, err) <- call (git_PlainOpen (repoPath s)) ;;
          emit (EvPlainOpen (repoPath s) err) ;;
          match err with
          | Some e => ret (Some e)
          | None =>
              log.Warn (lit "Doing git pull") ;;
              '(w, err) <- call (Repository_Worktree repo2) ;;
              emit (EvWorktree err) ;;
              match err with
              | Some e => ret (Some e)
              | None =>
                  perr <- call (Worktree_Pull w forcedPull) ;;
                  emit (EvPull forcedPull perr) ;;
                  setSelf (set_repo s repo2) ;;
                  ret None
              end
          end
    end).

(** [writefile] writes the given text to the index file. *)
Definition writefile (text : gostr) : M (option error) :=
  method M_writefile (
    s <- getSelf ;;
    err <- call (ioutil_WriteFile (indexFilePath s) text 420) ;;
    emit (EvWriteFile (indexFilePath s) text 420 err) ;;
    ret err).

(** [updateStreamStatus] as a step of the cycle. *)
Definition updateStreamStatusM : M (option error) :=
  method M_updateStreamStatus (
    s <- getSelf ;;
    let (s', err) := updateStreamStatus s in
    setSelf s' ;;
    ret err).

(** [readFile] reads the index file into [indexMdText]. *)
Definition readFile : M (option error) :=
  method M_readFile (
    s <- getSelf ;;
    '(markdownText, err) <- call (os_ReadFile (indexFilePath s)) ;;
    emit (EvReadFile (indexFilePath s) err) ;;
    match err with
    | Some e => ret (Some e)
    | None => setSelf (set_indexMdText s markdownText) ;; ret None
    end).

(** The test [fmt.Sprintf("%T", err) == "*main.NoChangeNeededError"]. *)
Definition isNoChangeNeeded (e : error) : bool :=
  gostr_eqb (fmt.Sprintf (lit "%T") [AErr e]) (lit "*main.NoChangeNeededError").

(** [updateMarkdown] reads index.md, updates the streamer's status, then
    writes the change back to index.md. *)
Definition updateMarkdown : M (option error) :=
  err <- getRepo ;;
  match err with
  | Some e => log.Printf (lit "error during repo clone: %s" ++ nl) [AErr e]
  | None => ret tt
  end ;;
  err <- readFile ;;
  match err with
  | Some e => log.Printf (lit "error reading file: %+s" ++ nl) [AErr e] ;; exit (-1)
  | None => ret tt
  end ;;
  err <- updateStreamStatusM ;;
  let writeBack : M (option error) :=
    s <- getSelf ;;
    err <- writefile (indexMdText s) ;;
    match err with
    | Some e => log.Printf (lit "error writing file: %s" ++ nl) [AErr e]
    | None => ret tt
    end ;;
    ret None in
  match err with
  | Some e =>
      if isNoChangeNeeded e then ret (Some e)
      else log.Printf (lit "error updating status: %s" ++ nl) [AErr e] ;; writeBack
  | None => writeBack
  end.

(** [updateRepo] adds and commits the changes to the repository. *)
Definition updateRepo : M unit :=
  err <- gitAdd ;;
  match err with
  | Some e => log.Printf (lit "error git adding file: error: %s" ++ nl) [AErr e]
  | None => ret tt
  end ;;
  err <- gitCommit ;;
  match err with
  | Some e => log.Printf (lit "error making commit: %s" ++ nl) [AErr e]
  | None => ret tt
  end.

(** [pushRepo] pushes the committed changes to GitHub. *)
Definition pushRepo : M unit :=
  err <- gitPush ;;
  match err with
  | Some e => log.Printf (lit "error pushing repo to GitHub: %s" ++ nl) [AErr e]
  | None => ret tt
  end.

(** The body shared by the two event branches of the handler, which differ
    in the decoder, the word logged and the value of [online]. *)
Definition syncEvent (name : gostr) (on : bool) : M unit :=
  log.Printf
    (if on then lit "got online event for: %s" ++ nl
     else lit "got offline event for: %s" ++ nl) [AStr name] ;;
  emit (EvRespWriteHeader 200) ;;
  emit (EvRespWrite (lit "ok")) ;;
  s <- getSelf ;;
  setSelf (set_event s name on) ;;
  err <- updateMarkdown ;;
  match err with
  | None => updateRepo ;; pushRepo
  | Some _ =>
      s <- getSelf ;;
      log.Warnf (lit "index.md doesn't need to be changed for %s") [AStr (streamer s)]
  end.

(** [eventsubStatus] handles one incoming webhook request. *)
Definition eventsubStatus (r : Request) : M unit :=
  let (body, err) := ioutil_ReadAll (Body r) in
  match err with
  | Some e => log.Println [AErr e]
  | None =>
      defer EvBodyClose (
        secret <- ask (os_Getenv (lit "SS_SECRETKEY")) ;;
        if negb (helix_VerifyEventSubNotification secret (Header r) body) then
          log.Println [AStr (lit "invalid signature on message")]
        else
          log.Println [AStr (lit "verified signature on message")] ;;
          let (vals, err) := json_Decode_notification body in
          match err with
          | Some e => log.Println [AErr e]
          | None =>
              if negb (gostr_eqb (Challenge vals) []) then
                emit (EvRespWrite (Challenge vals))
              else if gostr_eqb (Type_ (Subscription vals)) (lit "stream.offline") then
                syncEvent (BroadcasterUserName (json_Decode_offline (Event vals))) false
              else if gostr_eqb (Type_ (Subscription vals)) (lit "stream.online") then
                syncEvent (BroadcasterUserName (json_Decode_online (Event vals))) true
              else
                log.Errorf
                  (lit "error: event type %s has not been implemented -- pull requests welcome!")
                  [AStr (Header_Get (Header r) (lit "Twitch-Eventsub-Subscription-Type"))]
          end)
  end.

(** ** [main] and the server *)

Definition defaultRepo : gostr :=
  lit "https://github.com/infosecstreams/infosecstreams.github.io".

(** [main] up to the call of [http.ListenAndServe]: the events, and the
    [StreamersRepo] and the port the server starts with. *)
Definition main (w : World) : list TraceEvent * Res (StreamersRepo * gostr) :=
  let getenv := fun k => os_Getenv k w in
  let (ev1, repoUrl) :=
    if length (getenv (lit "SS_GH_REPO")) =? 0 then
      ([EvLog WarnLevel
          (lit "warning: no SS_GH_REPO specified in environment, defaulting to: https://github.com/infosecstreams/infosecstreams.github.io")],
       defaultRepo)
    else ([], []) in
  let parts := strings.Split repoUrl (lit "/") in
  match nth_error parts 4 with
  | None => (ev1, Panic (IndexOutOfRange 4 (length parts)))
  | Some repoPath =>
      let filePath := repoPath ++ lit "/index.md" in
      if (length (getenv (lit "SS_USERNAME")) =? 0)
         || (length (getenv (lit "SS_TOKEN")) =? 0)
         || (length (getenv (lit "SS_SECRETKEY")) =? 0)
      then
        (ev1 ++ [EvLog FatalLevel
                   (lit "error: no SS_USERNAME and/or SS_TOKEN and/or SS_SECRETKEY specified in environment!" ++ nl)],
         Exit 1)
      else
        let auth := mkBasicAuth (getenv (lit "SS_USERNAME")) (getenv (lit "SS_TOKEN")) in
        let repo :=
          mkStreamersRepo L auth filePath [] false nilRepository repoPath [] repoUrl in
        let port :=
          if negb (gostr_eqb (getenv (lit "PORT")) []) then lit ":" ++ getenv (lit "PORT")
          else if negb (gostr_eqb (getenv (lit "SS_PORT")) []) then lit ":" ++ getenv (lit "SS_PORT")
          else lit ":8080" in
        (ev1 ++ [EvLog InfoLevel (fmt.Sprintf (lit "server starting on %s" ++ nl) [AStr port])],
         Val (repo, port))
  end.

(** Whether the process is still there after the requests it was given. *)
Inductive ProcStatus : Type :=
| Listening
| Terminated (code : Z).

(** The server, one request after the other: a handler that returns or
    panics (net/http recovers the panic of a handler) leaves the process
    listening; [os.Exit] ends it, and the requests that follow are never
    handled. *)
Fixpoint serve (rs : list Request) (st : St) : list TraceEvent * St * ProcStatus :=
  match rs with
  | [] => ([], st, Listening)
  | r :: rs' =>
      match eventsubStatus r st with
      | mkRun evs st1 (Exit c) => (evs, st1, Terminated c)
      | mkRun evs st1 _ =>
          let '(evs', st2, ps) := serve rs' st1 in
          (evs ++ evs', st2, ps)
      end
  end.

End Program.

(** ** A small world to run the program in

    A test double of the libraries, used to evaluate the program on concrete
    requests: a world with an environment, the text of the index file (if
    it exists) and the error the next clone ends with.  A request body is
    one line: [C:<token>] for a challenge, [ON:<name>] and [OFF:<name>] for
    the two events; a request is signed when its header is the secret. *)

Record DemoWorld : Type := mkDemoWorld {
  demo_env : list (gostr * gostr);
  demo_indexMd : option gostr;
  demo_cloneError : option error
}.

Fixpoint demo_lookup (k : gostr) (env : list (gostr * gostr)) : gostr :=
  match env with
  | [] => []
  | (k', v) :: env' => if gostr_eqb k k' then v else demo_lookup k env'
  end.

Definition demo_decode (body : gostr) : eventSubNotification * option error :=
  if strings.HasPrefix body (lit "C:") then
    (mkEventSubNotification (skipn 2 body) [] (mkEventSubSubscription []), None)
  else if strings.HasPrefix body (lit "ON:") then
    (mkEventSubNotification [] (skipn 3 body) (mkEventSubSubscription (lit "stream.online")), None)
  else if strings.HasPrefix body (lit "OFF:") then
    (mkEventSubNotification [] (skipn 4 body) (mkEventSubSubscription (lit "stream.offline")), None)
  else if strings.HasPrefix body (lit "T:") then
    (mkEventSubNotification [] [] (mkEventSubSubscription (skipn 2 body)), None)
  else
    (mkEventSubNotification [] [] (mkEventSubSubscription []),
     Some (LibError (lit "*json.SyntaxError") (lit "invalid character")))
.

Definition demo_noFile : error :=
  LibError (lit "*fs.PathError") (lit "open index.md: no such file or directory").

Definition demoLib : Lib := {|
  World := DemoWorld;
  RepositoryPtr := bool;
  nilRepository := false;
  WorktreePtr := unit;
  Reference := unit;
  Hash := unit;
  CommitObj := unit;
  Time := unit;
  HeaderT := gostr;
  BodyT := gostr;
  mapUnicodeToLower := fun s => s;
  ioutil_ReadAll := fun b => (b, None);
  Header_Get := fun h _ => h;
  helix_VerifyEventSubNotification := fun secret h _ => gostr_eqb h secret;
  json_Decode_notification := demo_decode;
  json_Decode_offline := mkEventSubStreamEvent;
  json_Decode_online := mkEventSubStreamEvent;
  os_Getenv := fun k w => demo_lookup k (demo_env w);
  os_ReadFile := fun _ w =>
    match demo_indexMd w with
    | Some text => (w, (text, None))
    | None => (w, ([], Some demo_noFile))
    end;
  ioutil_WriteFile := fun _ text _ w =>
    (mkDemoWorld (demo_env w) (Some text) (demo_cloneError w), None);
  time_Now := fun _ => tt;
  git_PlainClone := fun _ _ _ w =>
    match demo_cloneError w with
    | None => (w, (true, None))
    | Some e => (w, (false, Some e))
    end;
  git_PlainOpen := fun _ w => (w, (true, None));
  Repository_Worktree := fun _ w => (w, (tt, None));
  Repository_Head := fun _ w => (w, (tt, None));
  Repository_CommitObject := fun _ _ w => (w, (tt, None));
  Repository_Push := fun _ _ w => (w, None);
  Worktree_Pull := fun _ _ w => (w, None);
  Worktree_Add := fun _ _ w => (w, None);
  Worktree_Commit := fun _ _ _ _ _ w => (w, None);
  Reference_Hash := fun r => r;
  Commit_String := fun _ => lit "commit 0000"
|}.

(** A [StreamersRepo] as [main] builds it from the default repository. *)
Definition demo_repo (text : gostr) (name : gostr) (on : bool) : @StreamersRepo demoLib :=
  mkStreamersRepo demoLib (mkBasicAuth (lit "bot") (lit "token"))
    (lit "infosecstreams.github.io/index.md") text on false
    (lit "infosecstreams.github.io") name defaultRepo.

Definition demo_env0 : list (gostr * gostr) :=
  [(lit "SS_USERNAME", lit "bot"); (lit "SS_TOKEN", lit "token");
   (lit "SS_SECRETKEY", lit "s3cret")].

Definition demo_request (body : string) : @Request demoLib :=
  mkRequest demoLib (lit "s3cret") (lit body).


(** The world of a first run in which the clone fails and the working copy
    holds no index file. *)
Definition demo_broken : @St demoLib :=
  mkSt (demo_repo [] [] false)
       (mkDemoWorld demo_env0 None
          (Some (LibError (lit "*errors.errorString") (lit "authentication required")))).

(** A world with a working copy on disk. *)
Definition demo_ready (text : string) : @St demoLib :=
  mkSt (demo_repo [] [] false)
       (mkDemoWorld demo_env0 (Some (lit text))
          (Some (LibError (lit "*errors.errorString") (lit "repository already exists")))).

(** ** What the claims speak of *)

(** [sub] stands in [s] at byte offset [p]. *)
Definition occursAt (s sub : gostr) (p : nat) : bool :=
  strings.HasPrefix (skipn p s) sub.

(** The offsets in the document at which a status row of the streamer
    starts: one of the two markers, with the name as given or lowercased. *)
Definition isRowAt {L : Lib} (doc name : gostr) (p : nat) : bool :=
  let lower := strings.ToLower mapUnicodeToLower name in
  occursAt doc (offlineMarker name) p || occursAt doc (onlineMarker name) p
  || occursAt doc (offlineMarker lower) p || occursAt doc (onlineMarker lower) p.

Definition statusRows {L : Lib} (doc name : gostr) : list nat :=
  filter (isRowAt doc name) (seq 0 (length doc)).


(** An online event, then an offline event, for the streamer of [s]: the
    two errors and the text at the end. *)
Definition onlineThenOffline {L : Lib} (s : StreamersRepo)
  : option error * option error * gostr :=
  let (s1, e1) := updateStreamStatus (set_event s (streamer s) true) in
  let (s2, e2) := updateStreamStatus (set_event s1 (streamer s) false) in
  (e1, e2, indexMdText s2).

(** The events of a trace that change the working copy or the remote. *)
Definition isMutation (e : TraceEvent) : bool :=
  match e with
  | EvWriteFile _ _ _ _ | EvAdd _ _ | EvCommit _ _ | EvPush _ _ => true
  | _ => false
  end.

(** The events of a trace that touch the repository at all. *)
Definition isRepoEvent (e : TraceEvent) : bool :=
  match e with
  | EvLog _ _ | EvRespWriteHeader _ | EvRespWrite _ | EvBodyClose => false
  | _ => true
  end.

(** The methods that returned, in order, with their errors. *)
Fixpoint returns (tr : list TraceEvent) : list (Method * option error) :=
  match tr with
  | [] => []
  | EvReturn m err :: tr' => (m, err) :: returns tr'
  | _ :: tr' => returns tr'
  end.

(** What was written to the HTTP response. *)
Fixpoint responseBody (tr : list TraceEvent) : gostr :=
  match tr with
  | [] => []
  | EvRespWrite data :: tr' => data ++ responseBody tr'
  | _ :: tr' => responseBody tr'
  end.





(** ** What the further properties speak of *)

(** The marker the update looks for, and the one it writes. *)
Definition soughtMarker {L : Lib} (on : bool) (name : gostr) : gostr :=
  if on then offlineMarker name else onlineMarker name.

Definition writtenMarker {L : Lib} (on : bool) (name : gostr) : gostr :=
  if on then onlineMarker name else offlineMarker name.

(** The events that write to the HTTP response. *)
Definition isResponse (e : TraceEvent) : bool :=
  match e with
  | EvRespWriteHeader _ | EvRespWrite _ => true
  | _ => false
  end.

(** The fields of the object that are set once, by [main]. *)
Definition sameConfig {L : Lib} (s s' : StreamersRepo) : Prop :=
  auth s' = auth s /\ indexFilePath s' = indexFilePath s /\
  repoPath s' = repoPath s /\ url s' = url s.

(** The same, and the event being handled. *)
Definition sameEvent {L : Lib} (s s' : StreamersRepo) : Prop :=
  sameConfig s s' /\ streamer s' = streamer s /\ online s' = online s.

(** A library call that is aimed where the object says: the clone at the
    URL and the directory taken from it, the open at [repoPath], the pull
    forced from origin, the read and the write at the index file, the stage
    at the file name taken from its path, the push at origin. *)
Definition onTarget {L : Lib} (s : StreamersRepo) (e : TraceEvent) : Prop :=
  match e with
  | EvPlainClone dir u _ =>
      u = url s /\ nth_error (strings.SplitN (url s) (lit "/") 5) 4 = Some dir
  | EvPlainOpen p _ => p = repoPath s
  | EvPull opts _ => opts = forcedPull
  | EvReadFile p _ => p = indexFilePath s
  | EvWriteFile p _ perm _ => p = indexFilePath s /\ perm = 420%Z
  | EvAdd file _ =>
      nth_error (strings.Split (indexFilePath s) (lit "/")) 1 = Some file
  | EvPush remote _ => remote = lit "origin"
  | _ => True
  end.

(** An event of a sync cycle for the event held in [s]: on target, no
    write to the response, and a commit with the message of that event. *)
Definition cycleEvent {L : Lib} (s : StreamersRepo) (e : TraceEvent) : Prop :=
  onTarget s e /\ isResponse e = false /\
  match e with EvCommit msg _ => msg = commitMessage s | _ => True end.

(** A computation that makes cycle events only and keeps the configuration
    and the event of the object. *)
Definition inCycle {L : Lib} {A : Type} (m : M A) : Prop :=
  forall st,
    Forall (cycleEvent (self st)) (events (m st)) /\
    sameEvent (self st) (self (final (m st))).

(** The events of a request that is answered or dropped without a cycle. *)
Definition isPlain (e : TraceEvent) : bool :=
  match e with
  | EvLog _ _ | EvRespWrite _ | EvBodyClose => true
  | _ => false
  end.

(** * Proofs *)

(** ** Strings *)

Lemma gostr_eqb_eq (a b : gostr) : gostr_eqb a b = true <-> a = b.
Proof.
  unfold gostr_eqb. destruct (list_eq_dec ascii_dec a b); split; congruence.
Qed.

Lemma gostr_eqb_refl (a : gostr) : gostr_eqb a a = true.
Proof. now apply gostr_eqb_eq. Qed.

Lemma gostr_eqb_neq (a b : gostr) : gostr_eqb a b = false <-> a <> b.
Proof.
  unfold gostr_eqb. destruct (list_eq_dec ascii_dec a b); split; congruence.
Qed.

Lemma HasPrefix_app (p t : gostr) : strings.HasPrefix (p ++ t) p = true.
Proof.
  induction p as [|c p IH]; simpl; [reflexivity|].
  now rewrite Ascii.eqb_refl, IH.
Qed.

Lemma HasPrefix_inv (s p : gostr) :
  strings.HasPrefix s p = true -> s = p ++ skipn (length p) s.
Proof.
  revert s. induction p as [|c p IH]; intros s H; simpl in *; [reflexivity|].
  destruct s as [|d s]; [discriminate|].
  apply andb_prop in H. destruct H as [Hc Hp].
  apply Ascii.eqb_eq in Hc. subst d. simpl. f_equal. now apply IH.
Qed.

Lemma HasPrefix_iff (s p : gostr) :
  strings.HasPrefix s p = true <-> exists t, s = p ++ t.
Proof.
  split.
  - intro H. eexists. now apply HasPrefix_inv.
  - intros [t ->]. apply HasPrefix_app.
Qed.

(** [Index] returns the first offset at which the substring stands. *)
Lemma Index_Some (s sub : gostr) (i : nat) :
  strings.Index s sub = Some i ->
  occursAt s sub i = true /\ i <= length s /\
  forall j, j < i -> occursAt s sub j = false.
Proof.
  unfold occursAt. revert i. induction s as [|c s IH]; intros i H; simpl in H.
  - destruct (strings.HasPrefix [] sub) eqn:E; [|discriminate].
    injection H as <-. simpl. repeat split; auto. intros j Hj. lia.
  - destruct (strings.HasPrefix (c :: s) sub) eqn:E.
    + injection H as <-. simpl. repeat split; auto with arith. intros j Hj. lia.
    + destruct (strings.Index s sub) as [k|] eqn:Ek; [|discriminate].
      simpl in H. injection H as <-.
      destruct (IH k eq_refl) as (H1 & H2 & H3).
      simpl. repeat split; auto with arith.
      intros [|j] Hj; simpl; [exact E|]. apply H3. lia.
Qed.

Lemma Index_None (s sub : gostr) :
  strings.Index s sub = None -> forall j, occursAt s sub j = false.
Proof.
  unfold occursAt. induction s as [|c s IH]; intros H j; simpl in H.
  - destruct (strings.HasPrefix [] sub) eqn:E; [discriminate|].
    now rewrite skipn_nil.
  - destruct (strings.HasPrefix (c :: s) sub) eqn:E; [discriminate|].
    destruct (strings.Index s sub) eqn:Ek; [discriminate|].
    destruct j as [|j]; simpl; [exact E|]. now apply IH.
Qed.


Lemma occursAt_split (s sub : gostr) (i : nat) :
  occursAt s sub i = true -> i <= length s ->
  s = firstn i s ++ sub ++ skipn (i + length sub) s.
Proof.
  unfold occursAt. intros H Hi. apply HasPrefix_inv in H.
  rewrite <- (firstn_skipn i s) at 1. f_equal.
  rewrite H at 1. f_equal. rewrite skipn_skipn. f_equal. lia.
Qed.

Lemma occursAt_app (pre sub post : gostr) :
  occursAt (pre ++ sub ++ post) sub (length pre) = true.
Proof.
  unfold occursAt. rewrite skipn_app, Nat.sub_diag, skipn_all. simpl.
  apply HasPrefix_app.
Qed.

Lemma Contains_true (s sub : gostr) :
  strings.Contains s sub = true <-> exists j, occursAt s sub j = true.
Proof.
  unfold strings.Contains. split.
  - destruct (strings.Index s sub) as [i|] eqn:E; [|discriminate].
    intros _. exists i. now apply Index_Some in E.
  - intros [j Hj]. destruct (strings.Index s sub) eqn:E; [reflexivity|].
    rewrite (Index_None _ _ E j) in Hj. discriminate.
Qed.

Lemma Contains_false (s sub : gostr) :
  strings.Contains s sub = false <-> forall j, occursAt s sub j = false.
Proof.
  split.
  - intros H j. destruct (occursAt s sub j) eqn:E; [|reflexivity].
    assert (strings.Contains s sub = true) by (apply Contains_true; eauto).
    congruence.
  - intros H. destruct (strings.Contains s sub) eqn:E; [|reflexivity].
    apply Contains_true in E. destruct E as [j Hj]. now rewrite H in Hj.
Qed.


(** One replacement: the first instance, when there is one. *)
Lemma Replace_1 (s old new : gostr) :
  strings.Replace s old new 1 =
  match strings.Index s old with
  | Some j => firstn j s ++ new ++ skipn (j + length old) s
  | None => s
  end.
Proof.
  unfold strings.Replace. simpl.
  destruct (gostr_eqb old new) eqn:E; simpl.
  - apply gostr_eqb_eq in E. subst new.
    destruct (strings.Index s old) as [j|] eqn:Ej; [|reflexivity].
    apply Index_Some in Ej. destruct Ej as (H & Hj & _).
    now apply occursAt_split.
  - change (Z.to_nat 1) with 1. simpl.
    destruct (strings.Index s old); reflexivity.
Qed.

Lemma replaceLoop_absent (k : nat) (s old new : gostr) :
  strings.Index s old = None -> strings.replaceLoop k s old new = s.
Proof. intro H. destruct k; simpl; [reflexivity|]. now rewrite H. Qed.

(** Nothing to replace: the text is returned as it is, whatever the limit. *)
Lemma Replace_absent (s old new : gostr) (n : Z) :
  strings.Contains s old = false -> strings.Replace s old new n = s.
Proof.
  unfold strings.Contains, strings.Replace. intro H.
  destruct (strings.Index s old) eqn:E; [discriminate|].
  destruct (gostr_eqb old new || (n =? 0)%Z); [reflexivity|].
  destruct (n <? 0)%Z; now apply replaceLoop_absent.
Qed.

(** On a string of ASCII bytes [ToLower] never consults the Unicode
    tables: the examples below, whose names are ASCII, do not depend on the
    mapping the test double supplies. *)
Lemma ToLower_ascii (f g : gostr -> gostr) (s : gostr) :
  strings.isASCII s = true -> strings.ToLower f s = strings.ToLower g s.
Proof. unfold strings.ToLower. now intros ->. Qed.

(** ** The status updater *)

Section UpdaterFacts.
Context {L : Lib}.

Lemma offlineMarker_eq (x : gostr) :
  offlineMarker x = lit "&nbsp; | `" ++ x ++ lit "`".
Proof. reflexivity. Qed.

Lemma onlineMarker_eq (x : gostr) :
  onlineMarker x = lit "🟢 | `" ++ x ++ lit "`".
Proof. reflexivity. Qed.

Lemma set_indexMdText_same (s : StreamersRepo) :
  set_indexMdText s (indexMdText s) = s.
Proof. now destruct s. Qed.

(** The error of the no-op passes the type test of [updateMarkdown]. *)
Lemma noChangeNeeded_recognised (s : StreamersRepo) :
  isNoChangeNeeded (noChangeNeeded s) = true.
Proof. reflexivity. Qed.

(** C1. Marking a streamer online when the document already holds an online
    row for it, with the name as given or lowercased, returns a
    [NoChangeNeededError] and leaves the object, and so the document text,
    as it was; the same holds for marking it offline when an offline row is
    there. *)
Theorem C1_already_in_state_is_no_change (s : StreamersRepo) :
  let lower := strings.ToLower mapUnicodeToLower (streamer s) in
  (online s = true ->
   strings.Contains (indexMdText s) (onlineMarker (streamer s)) = true \/
   strings.Contains (indexMdText s) (onlineMarker lower) = true ->
   updateStreamStatus s = (s, Some (noChangeNeeded s))) /\
  (online s = false ->
   strings.Contains (indexMdText s) (offlineMarker (streamer s)) = true \/
   strings.Contains (indexMdText s) (offlineMarker lower) = true ->
   updateStreamStatus s = (s, Some (noChangeNeeded s))).
Proof.
  intros lower. subst lower. unfold updateStreamStatus.
  split; intros Hon Hrow; rewrite Hon;
    apply orb_true_iff in Hrow; now rewrite Hrow.
Qed.

(** C5. When the document holds no row of the streamer, neither marker with
    the name as given or lowercased, the update returns no error (so no
    [NoChangeNeededError] either) and the document text is unchanged. *)
Theorem C5_absent_entity_is_silent_success (s : StreamersRepo) :
  let lower := strings.ToLower mapUnicodeToLower (streamer s) in
  strings.Contains (indexMdText s) (onlineMarker (streamer s)) = false ->
  strings.Contains (indexMdText s) (onlineMarker lower) = false ->
  strings.Contains (indexMdText s) (offlineMarker (streamer s)) = false ->
  strings.Contains (indexMdText s) (offlineMarker lower) = false ->
  updateStreamStatus s = (s, None).
Proof.
  intros lower H1 H2 H3 H4. subst lower. unfold updateStreamStatus.
  rewrite H1, H2, H3, H4. simpl.
  destruct (online s);
    destruct (strings.Contains (indexMdText s) (streamer s));
    rewrite Replace_absent by assumption;
    now rewrite set_indexMdText_same.
Qed.

(** A text that holds [a ++ x ++ b] holds [x]. *)
Lemma occursAt_inner (s a x b : gostr) (j : nat) :
  occursAt s (a ++ x ++ b) j = true -> occursAt s x (j + length a) = true.
Proof.
  unfold occursAt. intro H. apply HasPrefix_inv in H.
  apply HasPrefix_iff. exists (b ++ skipn (length (a ++ x ++ b)) (skipn j s)).
  rewrite Nat.add_comm, <- skipn_skipn, H at 1.
  rewrite <- !app_assoc, skipn_app, Nat.sub_diag, skipn_all. reflexivity.
Qed.

Lemma Contains_inner (s a x b : gostr) :
  strings.Contains s x = false -> strings.Contains s (a ++ x ++ b) = false.
Proof.
  intro H. apply Contains_false. intro j.
  destruct (occursAt s (a ++ x ++ b) j) eqn:E; [|reflexivity].
  apply occursAt_inner in E.
  rewrite (proj1 (Contains_false _ _) H) in E. discriminate.
Qed.

Lemma Contains_marker_name (s x : gostr) :
  strings.Contains s x = false ->
  strings.Contains s (onlineMarker x) = false /\
  strings.Contains s (offlineMarker x) = false.
Proof.
  intro H. rewrite onlineMarker_eq, offlineMarker_eq.
  split; now apply Contains_inner.
Qed.

(** C4, amended. When the name as given occurs nowhere in the document and
    the row is written with the lowercased name, the update finds the row
    and rewrites its first instance in both directions, with the name as
    given in the new row.  The test the code makes first is whether the
    name as given occurs anywhere in the document. *)
Theorem C4_lowercase_row_found_when_name_absent (s : StreamersRepo) (i : nat) :
  let name := streamer s in
  let lower := strings.ToLower mapUnicodeToLower name in
  let doc := indexMdText s in
  strings.Contains doc name = false ->
  (online s = true ->
   strings.Contains doc (onlineMarker lower) = false ->
   strings.Index doc (offlineMarker lower) = Some i ->
   updateStreamStatus s =
   (set_indexMdText s
      (firstn i doc ++ onlineMarker name
         ++ skipn (i + length (offlineMarker lower)) doc), None)) /\
  (online s = false ->
   strings.Contains doc (offlineMarker lower) = false ->
   strings.Index doc (onlineMarker lower) = Some i ->
   updateStreamStatus s =
   (set_indexMdText s
      (firstn i doc ++ offlineMarker name
         ++ skipn (i + length (onlineMarker lower)) doc), None)).
Proof.
  intros name lower doc Habs. subst name lower doc.
  destruct (Contains_marker_name _ _ Habs) as [Hon Hoff].
  unfold updateStreamStatus.
  split; intros Hdir Hno Hrow; rewrite Hdir, Habs.
  - rewrite Hon, Hno. simpl. now rewrite Replace_1, Hrow.
  - rewrite Hoff, Hno. simpl. now rewrite Replace_1, Hrow.
Qed.

End UpdaterFacts.

Lemma C1_witness :
  updateStreamStatus (demo_repo (lit "🟢 | `acme` | up") (lit "Acme") true)
  = (demo_repo (lit "🟢 | `acme` | up") (lit "Acme") true,
     Some (NoChangeNeededError (lit "no change needed for: Acme, online: true"))) /\
  updateStreamStatus (demo_repo (lit "&nbsp; | `Acme` | x") (lit "Acme") false)
  = (demo_repo (lit "&nbsp; | `Acme` | x") (lit "Acme") false,
     Some (NoChangeNeededError (lit "no change needed for: Acme, online: false"))).
Proof.
  split.
  - apply (proj1 (@C1_already_in_state_is_no_change demoLib
                    (demo_repo (lit "🟢 | `acme` | up") (lit "Acme") true)));
      [reflexivity | right; reflexivity].
  - apply (proj2 (@C1_already_in_state_is_no_change demoLib
                    (demo_repo (lit "&nbsp; | `Acme` | x") (lit "Acme") false)));
      [reflexivity | left; reflexivity].
Defined.

Lemma C5_witness :
  updateStreamStatus (demo_repo (lit "&nbsp; | `acme` | x") (lit "Zed") true)
  = (demo_repo (lit "&nbsp; | `acme` | x") (lit "Zed") true, None).
Proof.
  apply (@C5_absent_entity_is_silent_success demoLib); reflexivity.
Defined.

(** ** Markers that overlap *)












Section RoundTrip.
Context {L : Lib}.


















End RoundTrip.

(** C4 as stated fails: the row of [FooBar] is written [foobar], but the
    name as given stands elsewhere in the document (in a link), so the code
    searches for the row with the name as given, finds none, and returns
    success with the row left offline. *)
Lemma C4_counterexample :
  strings.Index (lit "&nbsp; | `foobar` | twitch.tv/FooBar")
    (@offlineMarker (strings.ToLower (@mapUnicodeToLower demoLib) (lit "FooBar")))
  = Some 0 /\
  updateStreamStatus
    (demo_repo (lit "&nbsp; | `foobar` | twitch.tv/FooBar") (lit "FooBar") true)
  = (demo_repo (lit "&nbsp; | `foobar` | twitch.tv/FooBar") (lit "FooBar") true, None).
Proof. split; reflexivity. Qed.

Lemma C4_witness :
  updateStreamStatus (demo_repo (lit "&nbsp; | `foobar` | x") (lit "FooBar") true)
  = (demo_repo (lit "🟢 | `FooBar` | x") (lit "FooBar") true, None) /\
  updateStreamStatus (demo_repo (lit "🟢 | `foobar` | x") (lit "FooBar") false)
  = (demo_repo (lit "&nbsp; | `FooBar` | x") (lit "FooBar") false, None).
Proof.
  split.
  - apply (proj1 (@C4_lowercase_row_found_when_name_absent demoLib
             (demo_repo (lit "&nbsp; | `foobar` | x") (lit "FooBar") true) 0
             eq_refl)); reflexivity.
  - apply (proj2 (@C4_lowercase_row_found_when_name_absent demoLib
             (demo_repo (lit "🟢 | `foobar` | x") (lit "FooBar") false) 0
             eq_refl)); reflexivity.
Defined.



(** ** More on the status updater *)

Section UpdaterMore.
Context {L : Lib}.

(** The update in one equation: the no-op test on the markers of the
    requested state, then one replacement of the marker of the other state. *)
Lemma updateStreamStatus_eq (s : StreamersRepo) :
  let lower := strings.ToLower mapUnicodeToLower (streamer s) in
  updateStreamStatus s =
  if strings.Contains (indexMdText s) (writtenMarker (online s) (streamer s))
     || strings.Contains (indexMdText s) (writtenMarker (online s) lower)
  then (s, Some (noChangeNeeded s))
  else (set_indexMdText s
          (strings.Replace (indexMdText s)
             (soughtMarker (online s)
                (if strings.Contains (indexMdText s) (streamer s)
                 then streamer s else lower))
             (writtenMarker (online s) (streamer s)) 1), None).
Proof.
  unfold updateStreamStatus, soughtMarker, writtenMarker.
  destruct (online s); destruct (strings.Contains (indexMdText s) (streamer s));
    reflexivity.
Qed.

Lemma occursAt_shift (a t sub : gostr) (j : nat) :
  occursAt t sub j = true -> occursAt (a ++ t) sub (length a + j) = true.
Proof.
  unfold occursAt. intro H.
  rewrite skipn_app. rewrite skipn_all2 by lia.
  replace (length a + j - length a) with j by lia. exact H.
Qed.

Lemma Contains_splice (pre new post : gostr) :
  strings.Contains (pre ++ new ++ post) new = true.
Proof. apply Contains_true. exists (length pre). apply occursAt_app. Qed.

Lemma firstn_Index_length (doc sub : gostr) (i : nat) :
  strings.Index doc sub = Some i -> length (firstn i doc) = i.
Proof.
  intro H. apply Index_Some in H. destruct H as (_ & Hi & _).
  rewrite length_firstn. lia.
Qed.

(** X1. Handling the same event twice leaves the object exactly as handling
    it once does.  When the first update changed the text, it returned no
    error and the second one returns a [NoChangeNeededError]. *)
Theorem updateStreamStatus_twice_is_once (s : StreamersRepo) :
  fst (updateStreamStatus (fst (updateStreamStatus s))) = fst (updateStreamStatus s) /\
  (indexMdText (fst (updateStreamStatus s)) <> indexMdText s ->
   snd (updateStreamStatus s) = None /\
   snd (updateStreamStatus (fst (updateStreamStatus s)))
   = Some (noChangeNeeded (fst (updateStreamStatus s)))).
Proof.
  rewrite (updateStreamStatus_eq s). cbv zeta.
  destruct (strings.Contains (indexMdText s) (writtenMarker (online s) (streamer s))
            || strings.Contains (indexMdText s)
                 (writtenMarker (online s)
                    (strings.ToLower mapUnicodeToLower (streamer s)))) eqn:Hc;
    cbn [fst snd].
  - rewrite (updateStreamStatus_eq s). cbv zeta. rewrite Hc.
    split; [reflexivity|]. intro H. now contradiction H.
  - rewrite Replace_1.
    destruct (strings.Index (indexMdText s) _) as [i|] eqn:Hi.
    + match goal with
      | |- context [set_indexMdText s ?t] => set (s1 := set_indexMdText s t)
      end.
      assert (updateStreamStatus s1 = (s1, Some (noChangeNeeded s1))) as E.
      { rewrite (updateStreamStatus_eq s1). cbv zeta.
        unfold s1 at 1. cbn [set_indexMdText indexMdText streamer online].
        now rewrite Contains_splice. }
      rewrite E. cbn [fst snd]. split; [reflexivity|]. intros _. now split.
    + rewrite set_indexMdText_same.
      rewrite (updateStreamStatus_eq s). cbv zeta. rewrite Hc.
      rewrite Replace_1, Hi, set_indexMdText_same. cbn [fst].
      split; [reflexivity|]. intro H. now contradiction H.
Qed.


(** The update changes the text only. *)
Lemma updateStreamStatus_fields (s : StreamersRepo) :
  let s' := fst (updateStreamStatus s) in
  auth s' = auth s /\ indexFilePath s' = indexFilePath s /\
  online s' = online s /\ repo s' = repo s /\ repoPath s' = repoPath s /\
  streamer s' = streamer s /\ url s' = url s.
Proof.
  rewrite (updateStreamStatus_eq s). cbv zeta.
  destruct (_ || _); repeat split; reflexivity.
Qed.


(** X3. When the document holds the row of the streamer in the other state,
    written with the name as given, and no row in the requested state, the
    update rewrites the first such row, in both directions. *)
Theorem cased_row_is_rewritten (s : StreamersRepo) (i : nat) :
  let name := streamer s in
  let lower := strings.ToLower mapUnicodeToLower name in
  let doc := indexMdText s in
  (online s = true ->
   strings.Contains doc (onlineMarker name) = false ->
   strings.Contains doc (onlineMarker lower) = false ->
   strings.Index doc (offlineMarker name) = Some i ->
   updateStreamStatus s =
   (set_indexMdText s
      (firstn i doc ++ onlineMarker name
         ++ skipn (i + length (offlineMarker name)) doc), None)) /\
  (online s = false ->
   strings.Contains doc (offlineMarker name) = false ->
   strings.Contains doc (offlineMarker lower) = false ->
   strings.Index doc (onlineMarker name) = Some i ->
   updateStreamStatus s =
   (set_indexMdText s
      (firstn i doc ++ offlineMarker name
         ++ skipn (i + length (onlineMarker name)) doc), None)).
Proof.
  intros name lower doc. subst name lower doc.
  assert (forall m, (m = offlineMarker (streamer s) \/ m = onlineMarker (streamer s)) ->
            strings.Index (indexMdText s) m = Some i ->
            strings.Contains (indexMdText s) (streamer s) = true) as Hname.
  { intros m Hm Hi.
    destruct (strings.Contains (indexMdText s) (streamer s)) eqn:E; [reflexivity|].
    destruct (Contains_marker_name _ _ E) as [E1 E2].
    unfold strings.Contains in E1, E2. destruct Hm; subst m; rewrite Hi in *; discriminate. }
  split; intros Hdir H1 H2 Hi; rewrite (updateStreamStatus_eq s); cbv zeta;
    rewrite Hdir; unfold writtenMarker, soughtMarker; rewrite H1, H2.
  - rewrite (Hname _ (or_introl eq_refl) Hi). cbn [orb].
    now rewrite Replace_1, Hi.
  - rewrite (Hname _ (or_intror eq_refl) Hi). cbn [orb].
    now rewrite Replace_1, Hi.
Qed.

(** X4. When the row to rewrite stands twice in the document, the update
    rewrites the first one only and the second one stays.  From then on the
    document holds a row of each state, and every event for this name,
    online or offline, returns a [NoChangeNeededError]: the second row is
    never brought up to date. *)
Theorem duplicate_rows_freeze (s : StreamersRepo) (i : nat) :
  let name := streamer s in
  let lower := strings.ToLower mapUnicodeToLower name in
  let doc := indexMdText s in
  let old := soughtMarker (online s) name in
  let new := writtenMarker (online s) name in
  strings.Contains doc new = false ->
  strings.Contains doc (writtenMarker (online s) lower) = false ->
  strings.Index doc old = Some i ->
  strings.Contains (skipn (i + length old) doc) old = true ->
  let s1 := fst (updateStreamStatus s) in
  snd (updateStreamStatus s) = None /\
  indexMdText s1 = firstn i doc ++ new ++ skipn (i + length old) doc /\
  strings.Contains (indexMdText s1) old = true /\
  forall on,
    updateStreamStatus (set_event s1 name on)
    = (set_event s1 name on, Some (noChangeNeeded (set_event s1 name on))).
Proof.
  intros name lower doc old new H1 H2 Hi Hdup s1.
  assert (strings.Contains doc name = true) as Hname.
  { destruct (strings.Contains doc name) eqn:E; [reflexivity|].
    destruct (Contains_marker_name _ _ E) as [E1 E2].
    unfold strings.Contains in E1, E2. unfold old, soughtMarker in Hi.
    destruct (online s); rewrite Hi in *; discriminate. }
  assert (updateStreamStatus s =
          (set_indexMdText s (firstn i doc ++ new ++ skipn (i + length old) doc), None))
    as E.
  { rewrite (updateStreamStatus_eq s). cbv zeta. fold name lower doc.
    fold new. rewrite H1, H2, Hname. cbn [orb]. fold old.
    now rewrite Replace_1, Hi. }
  subst s1. rewrite E. cbn [fst snd set_indexMdText indexMdText].
  assert (strings.Contains (firstn i doc ++ new ++ skipn (i + length old) doc) old = true)
    as Hold.
  { apply Contains_true in Hdup. destruct Hdup as [j Hj].
    apply Contains_true. exists (length (firstn i doc ++ new) + j).
    rewrite app_assoc. now apply occursAt_shift. }
  repeat split; try assumption.
  intro on. rewrite updateStreamStatus_eq. cbv zeta.
  cbn [set_event set_indexMdText indexMdText streamer online].
  fold name.
  assert (writtenMarker on name = new \/ writtenMarker on name = old) as [-> | ->].
  { unfold new, old, writtenMarker, soughtMarker.
    destruct on, (online s); auto. }
  - now rewrite Contains_splice.
  - now rewrite Hold.
Qed.


(** What the update returns depends on the text, the name and the state
    asked for, and on nothing else in the object. *)
Lemma updateStreamStatus_depends (s s' : StreamersRepo) :
  indexMdText s' = indexMdText s -> streamer s' = streamer s ->
  online s' = online s ->
  snd (updateStreamStatus s') = snd (updateStreamStatus s) /\
  indexMdText (fst (updateStreamStatus s')) = indexMdText (fst (updateStreamStatus s)).
Proof.
  intros Ht Hn Ho. rewrite (updateStreamStatus_eq s), (updateStreamStatus_eq s').
  cbv zeta. rewrite Ht, Hn, Ho.
  destruct (_ || _); cbn [fst snd set_indexMdText indexMdText].
  - split; [|exact Ht]. unfold noChangeNeeded. now rewrite Hn, Ho.
  - now split.
Qed.

End UpdaterMore.

(** ** The sync cycle and the handler *)

Section EffectFacts.
Context {L : Lib}.

Lemma returns_app (a b : list TraceEvent) : returns (a ++ b) = returns a ++ returns b.
Proof.
  induction a as [|e a IH]; [reflexivity|].
  destruct e; simpl; now rewrite ?IH.
Qed.

Lemma responseBody_app (a b : list TraceEvent) :
  responseBody (a ++ b) = responseBody a ++ responseBody b.
Proof.
  induction a as [|e a IH]; [reflexivity|].
  destruct e; simpl; rewrite ?IH, ?app_assoc; reflexivity.
Qed.

(** Symbolic execution of a method: unfold the monad, then split on the
    answer of each library call in turn. *)
Ltac run_unfold :=
  cbv [gitPush gitCommit gitAdd getRepo writefile readFile updateStreamStatusM
       getHeadCommit method bind getSelf setSelf call ask emit ret exit panic
       index defer log.Println log.Printf log.Warn log.Warnf log.Errorf];
  cbn [result events final self world app].

Ltac oracle :=
  match goal with
  | |- context [match ?x with Some _ => _ | None => _ end] => destruct x eqn:?
  | |- context [if negb ?c then _ else _] => destruct c eqn:?
  | |- context [match ?x with pair _ _ => _ end] => destruct x as [? ?] eqn:?
  end;
  cbn [result events final self world app negb].

Ltac run_done :=
  do 3 eexists; split; [reflexivity|]; split; [reflexivity|];
  split; [reflexivity|]; cbn [filter isMutation]; eauto.

Lemma gitPush_run (st : St) :
  exists evs w e,
    gitPush st = mkRun evs (mkSt (self st) w) (Val e) /\
    returns evs = [(M_gitPush, e)] /\
    responseBody evs = [] /\
    filter isMutation evs = [EvPush (lit "origin") e].
Proof. run_unfold. repeat oracle; run_done. Qed.

Lemma writefile_run (text : gostr) (st : St) :
  exists evs w e,
    writefile text st = mkRun evs (mkSt (self st) w) (Val e) /\
    returns evs = [(M_writefile, e)] /\
    responseBody evs = [] /\
    filter isMutation evs = [EvWriteFile (indexFilePath (self st)) text 420 e].
Proof. run_unfold. repeat oracle; run_done. Qed.

Lemma gitCommit_run (st : St) :
  exists evs w e,
    gitCommit st = mkRun evs (mkSt (self st) w) (Val e) /\
    returns evs = [(M_gitCommit, e)] /\
    responseBody evs = [] /\
    (filter isMutation evs = [] \/
     exists ce, filter isMutation evs = [EvCommit (commitMessage (self st)) ce]).
Proof. run_unfold. repeat oracle; run_done. Qed.

Lemma gitAdd_run (st : St) (file : gostr) :
  nth_error (strings.Split (indexFilePath (self st)) (lit "/")) 1 = Some file ->
  exists evs w e,
    gitAdd st = mkRun evs (mkSt (self st) w) (Val e) /\
    returns evs = [(M_gitAdd, e)] /\
    responseBody evs = [] /\
    (filter isMutation evs = [] \/ filter isMutation evs = [EvAdd file e]).
Proof. intro Hf. run_unfold. rewrite Hf. repeat oracle; run_done. Qed.


Lemma readFile_run (st : St) :
  exists w,
    (exists e,
       readFile st =
       mkRun [EvReadFile (indexFilePath (self st)) (Some e); EvReturn M_readFile (Some e)]
             (mkSt (self st) w) (Val (Some e))) \/
    (exists text,
       readFile st =
       mkRun [EvReadFile (indexFilePath (self st)) None; EvReturn M_readFile None]
             (mkSt (set_indexMdText (self st) text) w) (Val None)).
Proof. run_unfold. repeat oracle; eexists; [left|right]; eexists; reflexivity. Qed.

Lemma getRepo_run (st : St) (directory : gostr) :
  nth_error (strings.SplitN (url (self st)) (lit "/") 5) 4 = Some directory ->
  exists evs s' w e,
    getRepo st = mkRun evs (mkSt s' w) (Val e) /\
    returns evs = [(M_getRepo, e)] /\
    filter isMutation evs = [] /\
    responseBody evs = [] /\
    indexFilePath s' = indexFilePath (self st) /\
    streamer s' = streamer (self st) /\
    online s' = online (self st).
Proof.
  intro Hd. run_unfold. rewrite Hd.
  repeat oracle; do 4 eexists;
    (split; [reflexivity|]); (split; [reflexivity|]);
    (split; [reflexivity|]); (split; [reflexivity|]); auto.
Qed.

Lemma updateStreamStatus_error (s : StreamersRepo) (e : error) :
  snd (updateStreamStatus s) = Some e -> e = noChangeNeeded s.
Proof.
  unfold updateStreamStatus.
  destruct (online s);
    match goal with |- context [if ?c then (s, _) else _] => destruct c end;
    simpl; congruence.
Qed.

Lemma updateStreamStatus_config (s : StreamersRepo) :
  indexFilePath (fst (updateStreamStatus s)) = indexFilePath s /\
  streamer (fst (updateStreamStatus s)) = streamer s /\
  online (fst (updateStreamStatus s)) = online s.
Proof.
  unfold updateStreamStatus.
  destruct (online s) eqn:E;
    match goal with |- context [if ?c then (s, _) else _] => destruct c end;
    simpl; auto.
Qed.

Lemma updateStreamStatusM_run (st : St) :
  updateStreamStatusM st =
  mkRun [EvReturn M_updateStreamStatus (snd (updateStreamStatus (self st)))]
        (mkSt (fst (updateStreamStatus (self st))) (world st))
        (Val (snd (updateStreamStatus (self st)))).
Proof.
  run_unfold. destruct (updateStreamStatus (self st)) as [s' err]. reflexivity.
Qed.


Lemma filter_isMutation_app (a b : list TraceEvent) :
  filter isMutation (a ++ b) = filter isMutation a ++ filter isMutation b.
Proof. apply filter_app. Qed.

(** The call log, the mutations and the response of a trace made of
    several parts. *)
Ltac summarise :=
  repeat (cbn [returns filter isMutation responseBody app
               result events final self world];
          rewrite ?returns_app, ?filter_isMutation_app, ?responseBody_app).

(** Stage, commit and push: each is called once, in this order, whatever
    the one before returned. *)
Lemma updateRepo_pushRepo_run (st : St) (file : gostr) :
  nth_error (strings.Split (indexFilePath (self st)) (lit "/")) 1 = Some file ->
  exists evs w r2 r3 r4 adds commits,
    bind updateRepo (fun _ => pushRepo) st = mkRun evs (mkSt (self st) w) (Val tt) /\
    returns evs = [(M_gitAdd, r2); (M_gitCommit, r3); (M_gitPush, r4)] /\
    responseBody evs = [] /\
    filter isMutation evs = adds ++ commits ++ [EvPush (lit "origin") r4] /\
    (adds = [] \/ adds = [EvAdd file r2]) /\
    (commits = [] \/ exists ce, commits = [EvCommit (commitMessage (self st)) ce]).
Proof.
  intro Hf.
  cbv [updateRepo pushRepo bind ret emit log.Printf].
  destruct (gitAdd_run st file Hf) as (ev2 & w2 & r2 & E2 & R2 & B2 & F2).
  rewrite E2.
  destruct (gitCommit_run (mkSt (self st) w2)) as (ev3 & w3 & r3 & E3 & R3 & B3 & F3).
  destruct (gitPush_run (mkSt (self st) w3)) as (ev4 & w4 & r4 & E4 & R4 & B4 & F4).
  cbn [self] in *.
  destruct r2; cbn [result events final self world app]; rewrite E3;
    destruct r3; cbn [result events final self world app]; rewrite E4;
    destruct r4; cbn [result events final self world app];
    eexists; exists w4; do 3 eexists;
    exists (filter isMutation ev2), (filter isMutation ev3);
    (split; [reflexivity|]); summarise;
    rewrite R2, R3, R4, B2, B3, B4, F4; cbn [app]; rewrite ?app_nil_r;
    rewrite <- ?app_assoc; repeat split; auto.
Qed.

Ltac reduce := cbn [result events final self world app negb fst snd].

(** The three ways [updateMarkdown] ends. *)
Lemma updateMarkdown_cases (st : St) (dir : gostr) :
  nth_error (strings.SplitN (url (self st)) (lit "/") 5) 4 = Some dir ->
  let run := updateMarkdown st in
  responseBody (events run) = [] /\
  indexFilePath (self (final run)) = indexFilePath (self st) /\
  streamer (self (final run)) = streamer (self st) /\
  exists r0,
    (exists e,
       returns (events run) = [(M_getRepo, r0); (M_readFile, Some e)] /\
       result run = Exit (-1) /\
       filter isMutation (events run) = []) \/
    (exists e,
       isNoChangeNeeded e = true /\
       returns (events run) =
         [(M_getRepo, r0); (M_readFile, None); (M_updateStreamStatus, Some e)] /\
       result run = Val (Some e) /\
       filter isMutation (events run) = []) \/
    (exists r1,
       returns (events run) =
         [(M_getRepo, r0); (M_readFile, None); (M_updateStreamStatus, None);
          (M_writefile, r1)] /\
       result run = Val None /\
       filter isMutation (events run) =
         [EvWriteFile (indexFilePath (self st)) (indexMdText (self (final run))) 420 r1]).
Proof.
  intros Hd run. subst run.
  cbv [updateMarkdown bind ret emit exit getSelf log.Printf].
  destruct (getRepo_run st dir Hd)
    as (ev1 & s1 & w1 & r0 & E1 & R1 & F1 & B1 & P1 & N1 & O1).
  rewrite E1.
  destruct (readFile_run (mkSt s1 w1)) as (w2 & [(e & E2)|(text & E2)]);
    cbn [self] in E2.
  - destruct r0; reduce; rewrite E2; reduce;
      (split; [summarise; now rewrite B1|]);
      (split; [assumption|]); (split; [assumption|]);
      eexists; left; exists e; summarise; rewrite R1, F1; cbn [app];
      repeat split; reflexivity.
  - pose proof (updateStreamStatusM_run (mkSt (set_indexMdText s1 text) w2)) as E3.
    cbn [self world] in E3.
    pose proof (updateStreamStatus_config (set_indexMdText s1 text)) as (C1 & C2 & C3).
    pose proof (updateStreamStatus_error (set_indexMdText s1 text)) as Herr.
    destruct (updateStreamStatus (set_indexMdText s1 text)) as [s3 uerr].
    cbn [fst snd] in *. cbn [set_indexMdText indexFilePath streamer] in C1, C2.
    destruct uerr as [ue|].
    + rewrite (Herr ue eq_refl) in *.
      destruct r0; reduce; rewrite E2; reduce; rewrite E3; reduce;
        rewrite noChangeNeeded_recognised; reduce;
        (split; [summarise; now rewrite B1|]);
        (split; [congruence|]); (split; [congruence|]);
        eexists; right; left; eexists; summarise; rewrite R1, F1;
        (split; [apply noChangeNeeded_recognised|]); cbn [app];
        repeat split; reflexivity.
    + destruct (writefile_run (indexMdText s3) (mkSt s3 w2))
        as (ev4 & w4 & r1 & E4 & R4 & B4 & F4).
      cbn [self] in *.
      destruct r0; reduce; rewrite E2; reduce; rewrite E3; reduce;
        rewrite E4; destruct r1; reduce;
        (split; [summarise; now rewrite B1, B4|]);
        (split; [congruence|]); (split; [congruence|]);
        eexists; right; right; eexists; summarise; rewrite R1, F1, R4, F4;
        rewrite ?app_nil_r; cbn [app]; rewrite C1, P1;
        repeat split; reflexivity.
Qed.


(** The three ways a sync cycle ends. *)
Lemma syncEvent_cases (name : gostr) (on : bool) (st : St) (dir file : gostr) :
  nth_error (strings.SplitN (url (self st)) (lit "/") 5) 4 = Some dir ->
  nth_error (strings.Split (indexFilePath (self st)) (lit "/")) 1 = Some file ->
  let run := syncEvent name on st in
  responseBody (events run) = lit "ok" /\
  exists r0,
    (exists e,
       returns (events run) = [(M_getRepo, r0); (M_readFile, Some e)] /\
       result run = Exit (-1) /\
       filter isMutation (events run) = []) \/
    (exists e,
       isNoChangeNeeded e = true /\
       returns (events run) =
         [(M_getRepo, r0); (M_readFile, None); (M_updateStreamStatus, Some e)] /\
       result run = Val tt /\
       filter isMutation (events run) = []) \/
    (exists r1 r2 r3 r4 adds commits,
       returns (events run) =
         [(M_getRepo, r0); (M_readFile, None); (M_updateStreamStatus, None);
          (M_writefile, r1); (M_gitAdd, r2); (M_gitCommit, r3); (M_gitPush, r4)] /\
       result run = Val tt /\
       filter isMutation (events run) =
         EvWriteFile (indexFilePath (self st)) (indexMdText (self (final run))) 420 r1
           :: adds ++ commits ++ [EvPush (lit "origin") r4] /\
       (adds = [] \/ adds = [EvAdd file r2]) /\
       (commits = [] \/
        exists ce, commits = [EvCommit (commitMessage (self (final run))) ce])).
Proof.
  intros Hd Hf run. subst run. unfold syncEvent.
  set (publish := bind updateRepo (fun _ : unit => pushRepo)).
  cbv [bind ret emit getSelf setSelf log.Printf log.Warnf]. reduce.
  pose proof (updateMarkdown_cases (mkSt (set_event (self st) name on) (world st)) dir Hd)
    as (B & P & N & r0 & Hcases).
  cbn [self set_event indexFilePath streamer] in P, N, Hcases.
  destruct (updateMarkdown (mkSt (set_event (self st) name on) (world st)))
    as [evs st1 res].
  cbn [events final result] in *.
  destruct Hcases as [(e & R & -> & F)|[(e & He & R & -> & F)|(r1 & R & -> & F)]].
  - split; [summarise; rewrite B; reflexivity|].
    exists r0. left. exists e. summarise. rewrite R, F. repeat split; reflexivity.
  - split; [summarise; rewrite B; reflexivity|].
    exists r0. right; left. exists e. reduce. summarise. rewrite R, F.
    repeat split; try reflexivity; assumption.
  - assert (nth_error (strings.Split (indexFilePath (self st1)) (lit "/")) 1 = Some file)
      as Hf1 by (rewrite P; exact Hf).
    destruct (updateRepo_pushRepo_run st1 file Hf1)
      as (ev5 & w5 & r2 & r3 & r4 & adds & commits & E5 & R5 & B5 & F5 & Ha & Hc).
    fold publish in E5. rewrite E5. reduce.
    split; [summarise; rewrite B, B5; reflexivity|].
    exists r0. right; right. exists r1, r2, r3, r4, adds, commits.
    summarise. rewrite R, F, R5, F5. cbn [app].
    repeat split; try reflexivity; assumption.
Qed.



(** Every other request is answered, or dropped, without a sync cycle. *)
Lemma eventsubStatus_cases (r : Request) (st : St) :
  let run := eventsubStatus r st in
  (result run = Val tt /\ returns (events run) = [] /\
   filter isMutation (events run) = []) \/
  (exists name on,
     let sync := syncEvent name on st in
     returns (events run) = returns (events sync) /\
     filter isMutation (events run) = filter isMutation (events sync) /\
     result run = result sync /\
     final run = final sync).
Proof.
  unfold eventsubStatus.
  destruct (ioutil_ReadAll (Body r)) as [body [e|]];
    [left; repeat split; reflexivity|].
  cbv [defer bind ask ret emit log.Println log.Errorf].
  destruct (helix_VerifyEventSubNotification _ _ _); reduce;
    [|left; repeat split; reflexivity].
  destruct (json_Decode_notification body) as [vals [e|]]; reduce;
    [left; repeat split; reflexivity|].
  destruct (gostr_eqb (Challenge vals) []); reduce;
    [|left; repeat split; reflexivity].
  destruct (gostr_eqb (Type_ (Subscription vals)) (lit "stream.offline")).
  - right. exists (BroadcasterUserName (json_Decode_offline (Event vals))), false.
    destruct (syncEvent _ false st) as [evs st1 [[]| |]]; reduce; summarise;
      cbn [app]; rewrite ?app_nil_r; repeat split; reflexivity.
  - destruct (gostr_eqb (Type_ (Subscription vals)) (lit "stream.online")).
    + right. exists (BroadcasterUserName (json_Decode_online (Event vals))), true.
      destruct (syncEvent _ true st) as [evs st1 [[]| |]]; reduce; summarise;
        cbn [app]; rewrite ?app_nil_r; repeat split; reflexivity.
    + left. reduce. repeat split; reflexivity.
Qed.




(** C6. When the body is read, the signature verifies and the decoded body
    holds a non-empty challenge, the handler writes exactly the challenge to
    the response and returns; it calls no method of the repository and no
    library function on it, and leaves the shared object and the world as
    they were. *)
Theorem C6_challenge_is_echoed
        (r : Request) (st : St) (body : gostr) (vals : eventSubNotification) :
  ioutil_ReadAll (Body r) = (body, None) ->
  helix_VerifyEventSubNotification
    (os_Getenv (lit "SS_SECRETKEY") (world st)) (Header r) body = true ->
  json_Decode_notification body = (vals, None) ->
  Challenge vals <> [] ->
  let run := eventsubStatus r st in
  responseBody (events run) = Challenge vals /\
  filter isRepoEvent (events run) = [] /\
  final run = st /\
  result run = Val tt.
Proof.
  intros Hread Hver Hdec Hch run. subst run.
  unfold eventsubStatus. rewrite Hread.
  cbv [defer bind ask ret emit log.Println]. rewrite Hver. reduce.
  rewrite Hdec. apply gostr_eqb_neq in Hch. rewrite Hch. reduce.
  cbn [responseBody filter isRepoEvent app]. rewrite app_nil_r.
  repeat split; reflexivity.
Qed.

(** C7. When the signature does not verify, the run of the handler is the
    log line and the deferred close of the body, whatever the decoders
    would make of the body: nothing is decoded, nothing is written to the
    response, no repository operation happens, and the state is unchanged. *)
Theorem C7_bad_signature_is_dropped (r : Request) (st : St) (body : gostr) :
  ioutil_ReadAll (Body r) = (body, None) ->
  helix_VerifyEventSubNotification
    (os_Getenv (lit "SS_SECRETKEY") (world st)) (Header r) body = false ->
  eventsubStatus r st =
  mkRun [EvLog InfoLevel (log.joinArgs [AStr (lit "invalid signature on message")] ++ nl);
         EvBodyClose] st (Val tt) /\
  responseBody (events (eventsubStatus r st)) = [] /\
  filter isRepoEvent (events (eventsubStatus r st)) = [].
Proof.
  intros Hread Hver.
  assert (eventsubStatus r st =
          mkRun [EvLog InfoLevel
                   (log.joinArgs [AStr (lit "invalid signature on message")] ++ nl);
                 EvBodyClose] st (Val tt)) as E.
  { unfold eventsubStatus. rewrite Hread.
    cbv [defer bind ask ret emit log.Println]. rewrite Hver. reflexivity. }
  rewrite E. repeat split; reflexivity.
Qed.

(** Case analysis on the membership of an event in a concrete trace. *)
Ltac by_cases H :=
  cbn [In] in H;
  repeat (destruct H as [H|H]);
  try discriminate H; try contradiction;
  try (injection H as ? ?; subst).

(** C9. [getRepo] first clones into the directory taken from the URL.  It
    opens the repository on disk exactly when the clone failed with an
    error whose text contains [exists], and it opens the one at
    [repoPath].  When the open and the worktree succeed it pulls with
    [Force] from [origin]; whenever it pulled it returns no error, whatever
    the pull returned.  A clone error of any other kind is returned as it
    is, and a successful clone is stored in the object. *)
Theorem C9_clone_then_open_and_pull_if_exists (st : St) (directory : gostr) :
  nth_error (strings.SplitN (url (self st)) (lit "/") 5) 4 = Some directory ->
  let s := self st in
  let run := getRepo st in
  let '(_, (cloned, cerr)) :=
    git_PlainClone directory false (mkCloneOptions (auth s) (url s)) (world st) in
  (exists rest, events run = EvPlainClone directory (url s) cerr :: rest) /\
  ((exists p oerr, In (EvPlainOpen p oerr) (events run)) <->
   (exists e, cerr = Some e /\
              strings.Contains (fmt.Sprint e) (lit "exists") = true)) /\
  (forall p oerr, In (EvPlainOpen p oerr) (events run) -> p = repoPath s) /\
  (In (EvPlainOpen (repoPath s) None) (events run) ->
   In (EvWorktree None) (events run) ->
   exists perr, In (EvPull forcedPull perr) (events run)) /\
  (forall opts perr,
     In (EvPull opts perr) (events run) ->
     opts = forcedPull /\ result run = Val None) /\
  (forall e, cerr = Some e ->
     strings.Contains (fmt.Sprint e) (lit "exists") = false ->
     result run = Val (Some e) /\ self (final run) = s) /\
  (cerr = None ->
   result run = Val None /\ self (final run) = set_repo s cloned).
Proof.
  intros Hd s run. subst s run. run_unfold. rewrite Hd. reduce.
  destruct (git_PlainClone directory false _ (world st)) as [w1 [cloned cerr]].
  repeat oracle;
    (split; [eexists; reflexivity|]);
    (split;
     [split;
      [intros (p' & oerr' & H); by_cases H; eauto
      |intros (e' & H1 & H2); try discriminate H1;
       try (injection H1 as <-; congruence);
       do 2 eexists; cbn [In]; eauto]|]);
    (split; [intros p' oerr' H; by_cases H; reflexivity|]);
    (split; [intros H H'; by_cases H; by_cases H'; eexists; cbn [In]; eauto 10|]);
    (split; [intros opts' perr' H; by_cases H; split; reflexivity|]);
    (split;
     [intros e' H1 H2; try discriminate H1; try (injection H1 as <-);
      try congruence; split; reflexivity
     |intros H1; try discriminate H1; split; reflexivity]).
Qed.


(** C10. When [SS_GH_REPO] is set to a non-empty value, [main] leaves
    [repoUrl] empty, [strings.Split] of it has one element, and the index
    [4] panics: the process crashes at startup, before the credentials are
    looked at, whatever the configured value is. *)
Theorem C10_configured_repo_crashes_startup (w : World) :
  os_Getenv (lit "SS_GH_REPO") w <> [] ->
  main w = ([], Panic (IndexOutOfRange 4 1)).
Proof.
  intro Hset. unfold main.
  destruct (os_Getenv (lit "SS_GH_REPO") w) as [|c rest]; [contradiction|].
  reflexivity.
Qed.

(** The object [main] hands to the server has a URL and a file path that
    the two slice indexings of the cycle accept. *)
Lemma main_wellFormed (w : World) (evs : list TraceEvent)
      (s : StreamersRepo) (port : gostr) :
  main w = (evs, Val (s, port)) ->
  nth_error (strings.SplitN (url s) (lit "/") 5) 4
  = Some (lit "infosecstreams.github.io") /\
  nth_error (strings.Split (indexFilePath s) (lit "/")) 1 = Some (lit "index.md") /\
  repo s = nilRepository.
Proof.
  unfold main.
  destruct (os_Getenv (lit "SS_GH_REPO") w) as [|c rest].
  - cbn [length Nat.eqb].
    change (strings.Split defaultRepo (lit "/"))
      with [lit "https:"; []; lit "github.com"; lit "infosecstreams";
            lit "infosecstreams.github.io"].
    cbn [nth_error].
    destruct ((length (os_Getenv (lit "SS_USERNAME") w) =? 0)
              || (length (os_Getenv (lit "SS_TOKEN") w) =? 0)
              || (length (os_Getenv (lit "SS_SECRETKEY") w) =? 0));
      [discriminate|].
    intro H. injection H as _ <- _. repeat split; reflexivity.
  - discriminate.
Qed.

(** ** What a cycle keeps and where its calls go *)

Lemma sameConfig_refl (s : StreamersRepo) : sameConfig s s.
Proof. repeat split. Qed.

Lemma sameConfig_trans (a b c : StreamersRepo) :
  sameConfig a b -> sameConfig b c -> sameConfig a c.
Proof. unfold sameConfig. intuition congruence. Qed.

Lemma sameEvent_refl (s : StreamersRepo) : sameEvent s s.
Proof. repeat split. Qed.

Lemma sameEvent_trans (a b c : StreamersRepo) :
  sameEvent a b -> sameEvent b c -> sameEvent a c.
Proof. unfold sameEvent, sameConfig. intuition congruence. Qed.

Lemma onTarget_sameConfig (s s' : StreamersRepo) (e : TraceEvent) :
  sameConfig s s' -> onTarget s' e -> onTarget s e.
Proof.
  intros (Ha & Hp & Hr & Hu). destruct e; cbn [onTarget]; rewrite ?Hp, ?Hr, ?Hu; auto.
Qed.

Lemma cycleEvent_sameEvent (s s' : StreamersRepo) (e : TraceEvent) :
  sameEvent s s' -> cycleEvent s' e -> cycleEvent s e.
Proof.
  intros (Hc & Hn & Ho) (Ht & Hr & Hm). split; [|split].
  - now apply (onTarget_sameConfig s s').
  - exact Hr.
  - destruct e; auto. unfold commitMessage in *. now rewrite <- Hn, <- Ho.
Qed.

Lemma inCycle_bind {A B} (m : M A) (f : A -> M B) :
  inCycle m -> (forall a, inCycle (f a)) -> inCycle (bind m f).
Proof.
  intros Hm Hf st. unfold bind.
  destruct (Hm st) as [Em Sm]. destruct (m st) as [evs st1 [a|c|p]];
    cbn [events final] in *; try (split; assumption).
  destruct (Hf a st1) as [Ef Sf]. destruct (f a st1) as [evs' st2 r].
  cbn [events final] in *. split.
  - apply Forall_app. split; [exact Em|].
    revert Ef. apply Forall_impl. intro e. now apply cycleEvent_sameEvent.
  - now apply (sameEvent_trans _ (self st1)).
Qed.

Lemma inCycle_ret {A} (a : A) : inCycle (ret a).
Proof. intro st. split; [constructor|apply sameEvent_refl]. Qed.

Lemma inCycle_exit {A} (c : Z) : inCycle (@exit L A c).
Proof. intro st. split; [constructor|apply sameEvent_refl]. Qed.

Lemma inCycle_log (lvl : Level) (msg : gostr) : inCycle (emit (EvLog lvl msg)).
Proof.
  intro st. split; [|apply sameEvent_refl].
  repeat constructor.
Qed.

Lemma inCycle_getSelf {B} (f : StreamersRepo -> M B) :
  (forall s, inCycle (f s)) -> inCycle (bind getSelf f).
Proof. intro H. apply inCycle_bind; [|exact H]. intro st. split; [constructor|apply sameEvent_refl]. Qed.

Ltac method_inCycle :=
  intro st; run_unfold; repeat oracle;
  (split;
   [repeat constructor; cbn [onTarget]; auto
   |repeat split; reflexivity]).

Lemma gitPush_inCycle : inCycle gitPush.
Proof. method_inCycle. Qed.

Lemma gitCommit_inCycle : inCycle gitCommit.
Proof. method_inCycle. Qed.

Lemma gitAdd_inCycle : inCycle gitAdd.
Proof. method_inCycle. Qed.

Lemma getRepo_inCycle : inCycle getRepo.
Proof. method_inCycle. Qed.

Lemma writefile_inCycle (text : gostr) : inCycle (writefile text).
Proof. method_inCycle. Qed.

Lemma readFile_inCycle : inCycle readFile.
Proof. method_inCycle. Qed.

Lemma updateStreamStatusM_inCycle : inCycle updateStreamStatusM.
Proof.
  intro st. rewrite updateStreamStatusM_run. cbn [events final self].
  split; [repeat constructor|].
  destruct (updateStreamStatus_fields (self st))
    as (Ha & Hp & Ho & Hr & Hrp & Hs & Hu).
  repeat split; assumption.
Qed.


Ltac cycle_steps :=
  repeat first
    [ apply inCycle_ret
    | apply inCycle_exit
    | apply inCycle_log
    | apply getRepo_inCycle
    | apply readFile_inCycle
    | apply updateStreamStatusM_inCycle
    | apply writefile_inCycle
    | apply gitAdd_inCycle
    | apply gitCommit_inCycle
    | apply gitPush_inCycle
    | apply inCycle_getSelf; intros ?
    | apply inCycle_bind; [|intros ?]
    | match goal with
      | |- inCycle (match ?x with Some _ => _ | None => _ end) => destruct x
      | |- inCycle (if ?c then _ else _) => destruct c
      end ].

Lemma updateMarkdown_inCycle : inCycle updateMarkdown.
Proof.
  unfold updateMarkdown, log.Printf. cycle_steps.
Qed.

Lemma updateRepo_inCycle : inCycle updateRepo.
Proof. unfold updateRepo, log.Printf. cycle_steps. Qed.

Lemma pushRepo_inCycle : inCycle pushRepo.
Proof. unfold pushRepo, log.Printf. cycle_steps. Qed.

(** The shape of a sync cycle: the log line, the acknowledgement, and then
    cycle events only, for the event just stored in the object. *)
Lemma syncEvent_shape (name : gostr) (on : bool) (st : St) :
  exists msg rest,
    events (syncEvent name on st)
    = EvLog InfoLevel msg :: EvRespWriteHeader 200 :: EvRespWrite (lit "ok") :: rest /\
    Forall (cycleEvent (set_event (self st) name on)) rest /\
    sameEvent (set_event (self st) name on) (self (final (syncEvent name on st))).
Proof.
  unfold syncEvent.
  match goal with
  | |- context [bind updateMarkdown ?k] => set (tail := bind updateMarkdown k)
  end.
  assert (inCycle tail) as Htail.
  { unfold tail, log.Warnf. apply inCycle_bind; [apply updateMarkdown_inCycle|].
    intros [e|]; [cycle_steps|].
    apply inCycle_bind; [apply updateRepo_inCycle|intros _; apply pushRepo_inCycle]. }
  cbv [bind ret emit getSelf setSelf log.Printf]. reduce.
  destruct (Htail (mkSt (set_event (self st) name on) (world st))) as [Ev Sm].
  cbn [self] in Ev, Sm.
  destruct (tail (mkSt (set_event (self st) name on) (world st))) as [evs st2 r].
  cbn [events final] in *.
  do 2 eexists. split; [reflexivity|]. split; assumption.
Qed.


(** How the handler ends up in a sync cycle, or not. *)
Lemma eventsubStatus_trace (r : Request) (st : St) :
  let run := eventsubStatus r st in
  (forallb isPlain (events run) = true /\ final run = st /\ result run = Val tt) \/
  (exists name on msg tail,
     events run = EvLog InfoLevel msg :: events (syncEvent name on st) ++ tail /\
     (tail = [] \/ tail = [EvBodyClose]) /\
     final run = final (syncEvent name on st) /\
     result run = result (syncEvent name on st)).
Proof.
  unfold eventsubStatus.
  destruct (ioutil_ReadAll (Body r)) as [body [e|]];
    [left; repeat split; reflexivity|].
  cbv [defer bind ask ret emit log.Println log.Errorf].
  destruct (helix_VerifyEventSubNotification _ _ _); reduce;
    [|left; repeat split; reflexivity].
  destruct (json_Decode_notification body) as [vals [e|]]; reduce;
    [left; repeat split; reflexivity|].
  destruct (gostr_eqb (Challenge vals) []); reduce;
    [|left; repeat split; reflexivity].
  destruct (gostr_eqb (Type_ (Subscription vals)) (lit "stream.offline")).
  - right. exists (BroadcasterUserName (json_Decode_offline (Event vals))), false.
    destruct (syncEvent _ false st) as [evs st1 [[]| |]]; reduce;
      [eexists; exists [EvBodyClose]
      |eexists; exists []; rewrite app_nil_r
      |eexists; exists [EvBodyClose]];
      (split; [reflexivity|]); auto.
  - destruct (gostr_eqb (Type_ (Subscription vals)) (lit "stream.online")).
    + right. exists (BroadcasterUserName (json_Decode_online (Event vals))), true.
      destruct (syncEvent _ true st) as [evs st1 [[]| |]]; reduce;
        [eexists; exists [EvBodyClose]
        |eexists; exists []; rewrite app_nil_r
        |eexists; exists [EvBodyClose]];
        (split; [reflexivity|]); auto.
    + left. reduce. repeat split; reflexivity.
Qed.

(** The same for a verified and decoded event, with the name and the state
    that the cycle is run for. *)
Lemma eventsubStatus_sync_trace (r : Request) (st : St) (body : gostr)
      (vals : eventSubNotification) :
  ioutil_ReadAll (Body r) = (body, None) ->
  helix_VerifyEventSubNotification
    (os_Getenv (lit "SS_SECRETKEY") (world st)) (Header r) body = true ->
  json_Decode_notification body = (vals, None) ->
  Challenge vals = [] ->
  let run := eventsubStatus r st in
  let shape name on :=
    exists msg tail,
      events run = EvLog InfoLevel msg :: events (syncEvent name on st) ++ tail /\
      (tail = [] \/ tail = [EvBodyClose]) /\
      final run = final (syncEvent name on st) in
  (Type_ (Subscription vals) = lit "stream.offline" ->
   shape (BroadcasterUserName (json_Decode_offline (Event vals))) false) /\
  (Type_ (Subscription vals) = lit "stream.online" ->
   shape (BroadcasterUserName (json_Decode_online (Event vals))) true).
Proof.
  intros Hread Hver Hdec Hch. cbv zeta.
  unfold eventsubStatus. rewrite Hread.
  cbv [defer bind ask ret emit log.Println]. rewrite Hver. reduce.
  rewrite Hdec, Hch. reduce.
  change (gostr_eqb [] []) with true. reduce.
  split; intros ->.
  - rewrite gostr_eqb_refl.
    destruct (syncEvent _ false st) as [evs st1 [[]| |]]; reduce;
      [eexists; exists [EvBodyClose]
      |eexists; exists []; rewrite app_nil_r
      |eexists; exists [EvBodyClose]];
      (split; [reflexivity|]); auto.
  - change (gostr_eqb (lit "stream.online") (lit "stream.offline")) with false.
    rewrite gostr_eqb_refl.
    destruct (syncEvent _ true st) as [evs st1 [[]| |]]; reduce;
      [eexists; exists [EvBodyClose]
      |eexists; exists []; rewrite app_nil_r
      |eexists; exists [EvBodyClose]];
      (split; [reflexivity|]); auto.
Qed.

Lemma isPlain_onTarget (s : StreamersRepo) (e : TraceEvent) :
  isPlain e = true -> onTarget s e.
Proof. destruct e; cbn; auto; discriminate. Qed.

(** X13. Whatever the request, every call the handler makes on the file
    system and the repository is aimed where the shared object says: it
    clones the URL into the directory taken from it, opens [repoPath],
    pulls forced from origin, reads and writes the index file (mode 0644),
    stages the file name taken from its path, and pushes to origin. *)
Theorem every_library_call_is_on_target (r : Request) (st : St) (e : TraceEvent) :
  In e (events (eventsubStatus r st)) -> onTarget (self st) e.
Proof.
  destruct (eventsubStatus_trace r st)
    as [(Hplain & _)|(name & on & msg & tail & Hev & Htail & _)].
  - intro Hin. apply isPlain_onTarget.
    rewrite forallb_forall in Hplain. now apply Hplain.
  - rewrite Hev.
    destruct (syncEvent_shape name on st) as (msg' & rest & Hs & Hrest & _).
    rewrite Hs. intro Hin.
    assert (sameConfig (self st) (set_event (self st) name on)) as Hc
      by (repeat split; reflexivity).
    cbn [In app] in Hin.
    destruct Hin as [<-|[<-|[<-|[<-|Hin]]]]; try exact I.
    apply in_app_or in Hin. destruct Hin as [Hin|Hin].
    + apply (onTarget_sameConfig _ _ _ Hc).
      rewrite Forall_forall in Hrest. now apply Hrest.
    + destruct Htail as [->| ->]; [destruct Hin|].
      destruct Hin as [<-|[]]. exact I.
Qed.

Lemma eventsubStatus_keeps_config (r : Request) (st : St) :
  sameConfig (self st) (self (final (eventsubStatus r st))).
Proof.
  destruct (eventsubStatus_trace r st)
    as [(_ & -> & _)|(name & on & msg & tail & _ & _ & -> & _)].
  - apply sameConfig_refl.
  - destruct (syncEvent_shape name on st) as (_ & _ & _ & _ & Hs & _).
    exact Hs.
Qed.

(** X5. Whatever requests the server handles, and however their cycles
    end, the credentials, the path of the index file, the path of the
    repository and the URL of the shared object stay as [main] set them. *)
Theorem serve_keeps_config (rs : list Request) (st : St) :
  sameConfig (self st) (self (snd (fst (serve rs st)))).
Proof.
  revert st. induction rs as [|r rs IH]; intro st; cbn [serve].
  - apply sameConfig_refl.
  - pose proof (eventsubStatus_keeps_config r st) as H.
    destruct (eventsubStatus r st) as [evs st1 [a|c|p]]; cbn [final] in H;
      try exact H;
      specialize (IH st1); destruct (serve rs st1) as [[evs' st2] ps];
      cbn [fst snd] in *; now apply (sameConfig_trans _ (self st1)).
Qed.


Lemma cycleEvent_no_response (s : StreamersRepo) (l : list TraceEvent) :
  Forall (cycleEvent s) l -> Forall (fun e => isResponse e = false) l.
Proof. apply Forall_impl. intros e (_ & H & _). exact H. Qed.

(** X7. For a verified online or offline event the handler writes the
    status 200 and the body [ok] to the response right after its two log
    lines, before any call on the repository, and writes nothing to the
    response afterwards, however the cycle ends. *)
Theorem event_is_acknowledged_before_the_cycle
        (r : Request) (st : St) (body : gostr) (vals : eventSubNotification) :
  ioutil_ReadAll (Body r) = (body, None) ->
  helix_VerifyEventSubNotification
    (os_Getenv (lit "SS_SECRETKEY") (world st)) (Header r) body = true ->
  json_Decode_notification body = (vals, None) ->
  Challenge vals = [] ->
  Type_ (Subscription vals) = lit "stream.offline" \/
  Type_ (Subscription vals) = lit "stream.online" ->
  exists m0 m1 rest,
    events (eventsubStatus r st)
    = EvLog InfoLevel m0 :: EvLog InfoLevel m1
        :: EvRespWriteHeader 200 :: EvRespWrite (lit "ok") :: rest /\
    Forall (fun e => isResponse e = false) rest.
Proof.
  intros Hread Hver Hdec Hch Hty.
  destruct (eventsubStatus_sync_trace r st body vals Hread Hver Hdec Hch) as [Hoff Hon].
  assert (exists name on msg tail,
            events (eventsubStatus r st)
            = EvLog InfoLevel msg :: events (syncEvent name on st) ++ tail /\
            (tail = [] \/ tail = [EvBodyClose])) as (name & on & msg & tail & Hev & Htail).
  { destruct Hty as [H|H]; [destruct (Hoff H) as (msg & tail & Hev & Ht & _)
                           |destruct (Hon H) as (msg & tail & Hev & Ht & _)];
      eauto 8. }
  destruct (syncEvent_shape name on st) as (msg' & rest & Hs & Hrest & _).
  rewrite Hev, Hs. cbn [app].
  exists msg, msg', (rest ++ tail). split; [reflexivity|].
  apply Forall_app. split.
  - now apply cycleEvent_no_response in Hrest.
  - destruct Htail as [->| ->]; repeat constructor.
Qed.

(** X8. Every commit made while handling a verified event carries the
    message of that event: the name the event was decoded to, [has gone
    online!] or [has gone offline!], and the tag [[no ci]]. *)
Theorem commit_message_names_the_event
        (r : Request) (st : St) (body : gostr) (vals : eventSubNotification) :
  ioutil_ReadAll (Body r) = (body, None) ->
  helix_VerifyEventSubNotification
    (os_Getenv (lit "SS_SECRETKEY") (world st)) (Header r) body = true ->
  json_Decode_notification body = (vals, None) ->
  Challenge vals = [] ->
  (Type_ (Subscription vals) = lit "stream.offline" ->
   forall msg ce,
     In (EvCommit msg ce) (events (eventsubStatus r st)) ->
     msg = lit "☠️  " ++ BroadcasterUserName (json_Decode_offline (Event vals))
             ++ lit " has gone offline! [no ci]") /\
  (Type_ (Subscription vals) = lit "stream.online" ->
   forall msg ce,
     In (EvCommit msg ce) (events (eventsubStatus r st)) ->
     msg = lit "🟢 " ++ BroadcasterUserName (json_Decode_online (Event vals))
             ++ lit " has gone online! [no ci]").
Proof.
  intros Hread Hver Hdec Hch.
  destruct (eventsubStatus_sync_trace r st body vals Hread Hver Hdec Hch) as [Hoff Hon].
  assert (forall name on msg ce,
            (exists m tail,
               events (eventsubStatus r st)
               = EvLog InfoLevel m :: events (syncEvent name on st) ++ tail /\
               (tail = [] \/ tail = [EvBodyClose]) /\
               final (eventsubStatus r st) = final (syncEvent name on st)) ->
            In (EvCommit msg ce) (events (eventsubStatus r st)) ->
            msg = commitMessage (set_event (self st) name on)) as Hmsg.
  { intros name on msg ce (m & tail & Hev & Htail & _) Hin.
    destruct (syncEvent_shape name on st) as (msg' & rest & Hs & Hrest & _).
    rewrite Hev, Hs in Hin. cbn [In app] in Hin.
    destruct Hin as [H|[H|[H|[H|Hin]]]]; try discriminate.
    apply in_app_or in Hin. destruct Hin as [Hin|Hin].
    - rewrite Forall_forall in Hrest. destruct (Hrest _ Hin) as (_ & _ & H). exact H.
    - destruct Htail as [->| ->]; [destruct Hin|].
      destruct Hin as [H|[]]. discriminate. }
  split; intros Hty msg ce Hin.
  - apply (Hmsg _ false msg ce (Hoff Hty) Hin).
  - apply (Hmsg _ true msg ce (Hon Hty) Hin).
Qed.


(** X9. A verified and decoded request that holds no challenge and whose
    subscription type is neither [stream.offline] nor [stream.online] is
    logged and dropped: nothing is written to the response, the repository
    is not touched and the state is unchanged. *)
Theorem unrecognised_event_is_dropped
        (r : Request) (st : St) (body : gostr) (vals : eventSubNotification) :
  ioutil_ReadAll (Body r) = (body, None) ->
  helix_VerifyEventSubNotification
    (os_Getenv (lit "SS_SECRETKEY") (world st)) (Header r) body = true ->
  json_Decode_notification body = (vals, None) ->
  Challenge vals = [] ->
  Type_ (Subscription vals) <> lit "stream.offline" ->
  Type_ (Subscription vals) <> lit "stream.online" ->
  let run := eventsubStatus r st in
  responseBody (events run) = [] /\
  filter isResponse (events run) = [] /\
  filter isRepoEvent (events run) = [] /\
  final run = st /\
  result run = Val tt.
Proof.
  intros Hread Hver Hdec Hch Hoff Hon run. subst run.
  unfold eventsubStatus. rewrite Hread.
  cbv [defer bind ask ret emit log.Println log.Errorf]. rewrite Hver. reduce.
  rewrite Hdec, Hch. reduce.
  change (gostr_eqb [] []) with true. reduce.
  apply gostr_eqb_neq in Hoff, Hon. rewrite Hoff, Hon. reduce.
  repeat split; reflexivity.
Qed.




Lemma nonempty_length (x : gostr) : (length x =? 0) = false <-> x <> [].
Proof. destruct x; cbn; split; congruence. Qed.

(** X11. [main] reaches the server exactly when [SS_GH_REPO] is empty and
    the three credentials are not.  The object it then serves with is the
    one of the default repository, with the credentials of the environment,
    no repository handle and no text; the port is [PORT], else [SS_PORT],
    else 8080. *)
Theorem main_reaches_the_server_iff (w : World) :
  ((exists evs s port, main w = (evs, Val (s, port))) <->
   os_Getenv (lit "SS_GH_REPO") w = [] /\ os_Getenv (lit "SS_USERNAME") w <> [] /\
   os_Getenv (lit "SS_TOKEN") w <> [] /\ os_Getenv (lit "SS_SECRETKEY") w <> []) /\
  (forall evs s port,
     main w = (evs, Val (s, port)) ->
     s = mkStreamersRepo L
           (mkBasicAuth (os_Getenv (lit "SS_USERNAME") w) (os_Getenv (lit "SS_TOKEN") w))
           (lit "infosecstreams.github.io/index.md") [] false nilRepository
           (lit "infosecstreams.github.io") []
           (lit "https://github.com/infosecstreams/infosecstreams.github.io") /\
     port = (if negb (gostr_eqb (os_Getenv (lit "PORT") w) []) then lit ":" ++ os_Getenv (lit "PORT") w
             else if negb (gostr_eqb (os_Getenv (lit "SS_PORT") w) [])
                  then lit ":" ++ os_Getenv (lit "SS_PORT") w
                  else lit ":8080")).
Proof.
  cbv zeta. unfold main.
  destruct (os_Getenv (lit "SS_GH_REPO") w) as [|c rest] eqn:Hrepo.
  - cbn [length Nat.eqb].
    change (strings.Split defaultRepo (lit "/"))
      with [lit "https:"; []; lit "github.com"; lit "infosecstreams";
            lit "infosecstreams.github.io"].
    cbn [nth_error].
    destruct (length (os_Getenv (lit "SS_USERNAME") w) =? 0) eqn:Hu;
      [|destruct (length (os_Getenv (lit "SS_TOKEN") w) =? 0) eqn:Ht;
        [|destruct (length (os_Getenv (lit "SS_SECRETKEY") w) =? 0) eqn:Hs]];
      cbn [orb].
    1-3: split; [split; [intros (? & ? & ? & H); discriminate H|]
                |intros ? ? ? H; discriminate H].
    + intros (_ & H & _). apply Nat.eqb_eq, length_zero_iff_nil in Hu. contradiction.
    + intros (_ & _ & H & _). apply Nat.eqb_eq, length_zero_iff_nil in Ht. contradiction.
    + intros (_ & _ & _ & H). apply Nat.eqb_eq, length_zero_iff_nil in Hs. contradiction.
    + apply nonempty_length in Hu, Ht, Hs. split.
      * split; [intros _; auto|]. intros _. do 3 eexists. reflexivity.
      * intros evs s port H. injection H as _ <- <-. split; reflexivity.
  - cbn [length Nat.eqb]. split.
    + split; [intros (? & ? & ? & H); discriminate H|]. intros (H & _). discriminate H.
    + intros ? ? ? H. discriminate H.
Qed.

(** X14. When the index file is read, [updateMarkdown] leaves in the object
    the text that [updateStreamStatus] makes of the text read, for the name
    and the state of the object.  When that update needs no change nothing
    is written; otherwise that text, and no other, is written to the index
    file, once. *)
Theorem updateMarkdown_writes_the_update_of_what_it_read
        (st : St) (dir text : gostr) (w2 : World) :
  nth_error (strings.SplitN (url (self st)) (lit "/") 5) 4 = Some dir ->
  os_ReadFile (indexFilePath (self st)) (world (final (getRepo st)))
  = (w2, (text, None)) ->
  let upd := updateStreamStatus (set_indexMdText (self st) text) in
  let run := updateMarkdown st in
  indexMdText (self (final run)) = indexMdText (fst upd) /\
  match snd upd with
  | Some e =>
      result run = Val (Some e) /\ filter isMutation (events run) = []
  | None =>
      result run = Val None /\
      exists werr,
        filter isMutation (events run)
        = [EvWriteFile (indexFilePath (self st)) (indexMdText (fst upd)) 420 werr]
  end.
Proof.
  intros Hd Hread upd run. subst upd run.
  destruct (getRepo_run st dir Hd)
    as (ev1 & s1 & w1 & r0 & E1 & R1 & F1 & B1 & P1 & N1 & O1).
  rewrite E1 in Hread. cbn [final world] in Hread.
  assert (readFile (mkSt s1 w1)
          = mkRun [EvReadFile (indexFilePath s1) None; EvReturn M_readFile None]
                  (mkSt (set_indexMdText s1 text) w2) (Val None)) as E2.
  { run_unfold. rewrite P1, Hread. reflexivity. }
  destruct (updateStreamStatus_depends (set_indexMdText (self st) text)
              (set_indexMdText s1 text) eq_refl N1 O1) as [Hsnd Htext].
  pose proof (updateStreamStatus_error (set_indexMdText s1 text)) as Herr.
  pose proof (updateStreamStatus_config (set_indexMdText s1 text)) as (C1 & _).
  pose proof (updateStreamStatusM_run (mkSt (set_indexMdText s1 text) w2)) as E3.
  cbn [self world] in E3.
  rewrite <- Hsnd, <- Htext.
  destruct (updateStreamStatus (set_indexMdText s1 text)) as [s3 uerr].
  cbn [fst snd set_indexMdText indexFilePath] in *.
  cbv [updateMarkdown bind ret emit exit getSelf log.Printf].
  rewrite E1.
  destruct uerr as [ue|].
  - rewrite (Herr ue eq_refl) in *.
    destruct r0; reduce; rewrite E2; reduce; rewrite E3; reduce;
      rewrite noChangeNeeded_recognised; reduce;
      summarise; rewrite F1; repeat split; reflexivity.
  - destruct (writefile_run (indexMdText s3) (mkSt s3 w2))
      as (ev4 & w4 & r1 & E4 & R4 & B4 & F4).
    cbn [self] in *.
    destruct r0; reduce; rewrite E2; reduce; rewrite E3; reduce;
      rewrite E4; destruct r1; reduce;
      (split; [reflexivity|]); (split; [reflexivity|]);
      eexists; summarise; rewrite F1, F4, ?app_nil_r; cbn [app];
      rewrite C1, P1; reflexivity.
Qed.


(** X15. On an object as [main] builds it, when handling a request changes
    anything in the working copy or the remote, the index file was read
    and the update returned no error, and the first change is the write of
    the index file. *)
Theorem nothing_changes_unless_read_and_updated
        (r : Request) (st : St) (dir file : gostr) :
  nth_error (strings.SplitN (url (self st)) (lit "/") 5) 4 = Some dir ->
  nth_error (strings.Split (indexFilePath (self st)) (lit "/")) 1 = Some file ->
  let run := eventsubStatus r st in
  filter isMutation (events run) <> [] ->
  In (M_readFile, None) (returns (events run)) /\
  In (M_updateStreamStatus, None) (returns (events run)) /\
  exists text werr rest,
    filter isMutation (events run)
    = EvWriteFile (indexFilePath (self st)) text 420 werr :: rest.
Proof.
  intros Hd Hf run Hne. subst run.
  destruct (eventsubStatus_cases r st)
    as [(_ & _ & H)|(name & on & Hret & Hmut & _ & _)]; [contradiction|].
  rewrite Hret, Hmut in *.
  destruct (syncEvent_cases name on st dir file Hd Hf) as (_ & r0 & Hcases).
  destruct Hcases as [(e & _ & _ & F)|[(e & _ & _ & _ & F)|(r1 & r2 & r3 & r4 & a & c & R & _ & F & _)]];
    try contradiction.
  rewrite R, F. cbn [In]. split; [auto|]. split; [auto|]. eauto.
Qed.

End EffectFacts.



Lemma C6_witness :
  responseBody (events (eventsubStatus (demo_request "C:xyz123") (demo_ready "")))
  = lit "xyz123" /\
  filter isRepoEvent (events (eventsubStatus (demo_request "C:xyz123") (demo_ready ""))) = [] /\
  final (eventsubStatus (demo_request "C:xyz123") (demo_ready "")) = demo_ready "" /\
  result (eventsubStatus (demo_request "C:xyz123") (demo_ready "")) = Val tt.
Proof.
  apply (@C6_challenge_is_echoed demoLib (demo_request "C:xyz123") (demo_ready "")
           (lit "C:xyz123")
           (mkEventSubNotification (lit "xyz123") [] (mkEventSubSubscription [])));
    [reflexivity | reflexivity | reflexivity | discriminate].
Defined.

Lemma C7_witness :
  responseBody
    (events (eventsubStatus (mkRequest demoLib (lit "forged") (lit "ON:acme"))
               (demo_ready "&nbsp; | `acme` | x"))) = [] /\
  filter isRepoEvent
    (events (eventsubStatus (mkRequest demoLib (lit "forged") (lit "ON:acme"))
               (demo_ready "&nbsp; | `acme` | x"))) = [].
Proof.
  apply (@C7_bad_signature_is_dropped demoLib
           (mkRequest demoLib (lit "forged") (lit "ON:acme"))
           (demo_ready "&nbsp; | `acme` | x") (lit "ON:acme"));
    reflexivity.
Defined.


Lemma C9_witness :
  exists perr,
    In (EvPull forcedPull perr) (events (getRepo (demo_ready ""))) /\
    result (getRepo (demo_ready "")) = Val None.
Proof.
  pose proof (@C9_clone_then_open_and_pull_if_exists demoLib (demo_ready "")
                (lit "infosecstreams.github.io") eq_refl) as H.
  cbv zeta in H.
  change (git_PlainClone (lit "infosecstreams.github.io") false
            (mkCloneOptions (auth (self (demo_ready ""))) (url (self (demo_ready ""))))
            (world (demo_ready "")))
    with (world (demo_ready ""),
          (false, Some (LibError (lit "*errors.errorString")
                          (lit "repository already exists")))) in H.
  cbv iota in H.
  destruct H as (_ & _ & _ & Hpull & Hforced & _).
  destruct Hpull as [perr Hp]; [vm_compute; auto | vm_compute; auto 10 |].
  exists perr. split; [exact Hp|]. exact (proj2 (Hforced _ _ Hp)).
Defined.

Lemma C10_witness :
  @main demoLib
    (mkDemoWorld ((lit "SS_GH_REPO", lit "https://github.com/me/streams") :: demo_env0)
       None None)
  = ([], Panic (IndexOutOfRange 4 1)).
Proof.
  apply (@C10_configured_repo_crashes_startup demoLib). discriminate.
Defined.

(** The scenario of the specification: the row of [acme] goes online, and
    a second online event changes nothing. *)
Example acme_goes_online :
  updateStreamStatus (demo_repo (lit "&nbsp; | `acme`") (lit "acme") true)
  = (demo_repo (lit "🟢 | `acme`") (lit "acme") true, None) /\
  updateStreamStatus (demo_repo (lit "🟢 | `acme`") (lit "acme") true)
  = (demo_repo (lit "🟢 | `acme`") (lit "acme") true,
     Some (NoChangeNeededError (lit "no change needed for: acme, online: true"))).
Proof. split; reflexivity. Qed.

(** Why the round trip asks for a name without space or backtick: with the
    name [🟢 | ] the online row that the first event writes joins the text
    before it into an earlier online row, and the offline event rewrites
    that one. *)
Example round_trip_needs_plain_name :
  length (@statusRows demoLib (lit "🟢 | `&nbsp; | `🟢 | `") (lit "🟢 | ")) = 1 /\
  strings.Contains (lit "🟢 | `&nbsp; | `🟢 | `") (@offlineMarker (lit "🟢 | ")) = true /\
  onlineThenOffline (demo_repo (lit "🟢 | `&nbsp; | `🟢 | `") (lit "🟢 | ") false)
  = (None, None, lit "&nbsp; | `🟢 | `🟢 | `").
Proof. repeat split; reflexivity. Qed.

(** ** Concrete runs of the further properties *)

Lemma duplicate_rows_freeze_witness :
  snd (updateStreamStatus
         (demo_repo (lit "&nbsp; | `acme` | a / &nbsp; | `acme` | b") (lit "acme") true))
  = None /\
  strings.Contains
    (indexMdText
       (fst (updateStreamStatus
               (demo_repo (lit "&nbsp; | `acme` | a / &nbsp; | `acme` | b")
                  (lit "acme") true))))
    (@offlineMarker (lit "acme")) = true.
Proof.
  destruct (@duplicate_rows_freeze demoLib
              (demo_repo (lit "&nbsp; | `acme` | a / &nbsp; | `acme` | b")
                 (lit "acme") true) 0 eq_refl eq_refl eq_refl eq_refl)
    as (H1 & _ & H3 & _).
  split; [exact H1|exact H3].
Defined.


Lemma event_is_acknowledged_witness :
  exists m0 m1 rest,
    events (eventsubStatus (demo_request "ON:acme") demo_broken)
    = EvLog InfoLevel m0 :: EvLog InfoLevel m1
        :: EvRespWriteHeader 200 :: EvRespWrite (lit "ok") :: rest /\
    Forall (fun e => isResponse e = false) rest.
Proof.
  exact (@event_is_acknowledged_before_the_cycle demoLib
           (demo_request "ON:acme") demo_broken (lit "ON:acme")
           (mkEventSubNotification [] (lit "acme")
              (mkEventSubSubscription (lit "stream.online")))
           eq_refl eq_refl eq_refl eq_refl (or_intror eq_refl)).
Defined.

Lemma commit_message_witness :
  lit "🟢 acme has gone online! [no ci]"
  = lit "🟢 " ++ lit "acme" ++ lit " has gone online! [no ci]".
Proof.
  apply (proj2 (@commit_message_names_the_event demoLib
                  (demo_request "ON:acme") (demo_ready "&nbsp; | `acme` | x")
                  (lit "ON:acme")
                  (mkEventSubNotification [] (lit "acme")
                     (mkEventSubSubscription (lit "stream.online")))
                  eq_refl eq_refl eq_refl eq_refl)
               eq_refl _ None).
  vm_compute. auto 40.
Defined.

Lemma unrecognised_event_witness :
  responseBody (events (eventsubStatus (demo_request "T:channel.follow") (demo_ready ""))) = [] /\
  filter isResponse (events (eventsubStatus (demo_request "T:channel.follow") (demo_ready ""))) = [] /\
  filter isRepoEvent (events (eventsubStatus (demo_request "T:channel.follow") (demo_ready ""))) = [] /\
  final (eventsubStatus (demo_request "T:channel.follow") (demo_ready "")) = demo_ready "" /\
  result (eventsubStatus (demo_request "T:channel.follow") (demo_ready "")) = Val tt.
Proof.
  apply (@unrecognised_event_is_dropped demoLib
           (demo_request "T:channel.follow") (demo_ready "") (lit "T:channel.follow")
           (mkEventSubNotification [] [] (mkEventSubSubscription (lit "channel.follow"))));
    try reflexivity; discriminate.
Defined.

Lemma updateMarkdown_pipeline_witness :
  exists werr,
    filter isMutation
      (events (updateMarkdown
                 (mkSt (demo_repo [] (lit "acme") true)
                       (world (demo_ready "&nbsp; | `acme` | x")))))
    = [EvWriteFile (lit "infosecstreams.github.io/index.md")
         (lit "🟢 | `acme` | x") 420 werr].
Proof.
  exact (proj2 (proj2 (@updateMarkdown_writes_the_update_of_what_it_read demoLib
           (mkSt (demo_repo [] (lit "acme") true)
                 (world (demo_ready "&nbsp; | `acme` | x")))
           (lit "infosecstreams.github.io") (lit "&nbsp; | `acme` | x")
           (world (demo_ready "&nbsp; | `acme` | x")) eq_refl eq_refl))).
Defined.

Lemma nothing_changes_witness :
  In (M_readFile, None)
     (returns (events (eventsubStatus (demo_request "ON:acme")
                         (demo_ready "&nbsp; | `acme` | x")))) /\
  In (M_updateStreamStatus, None)
     (returns (events (eventsubStatus (demo_request "ON:acme")
                         (demo_ready "&nbsp; | `acme` | x")))).
Proof.
  destruct (@nothing_changes_unless_read_and_updated demoLib
              (demo_request "ON:acme") (demo_ready "&nbsp; | `acme` | x")
              (lit "infosecstreams.github.io") (lit "index.md") eq_refl eq_refl)
    as (H1 & H2 & _).
  - vm_compute. discriminate.
  - split; [exact H1|exact H2].
Defined.

Lemma every_library_call_witness :
  In (EvAdd (lit "index.md") None)
     (events (eventsubStatus (demo_request "ON:acme")
                (demo_ready "&nbsp; | `acme` | x"))) /\
  nth_error (strings.Split (lit "infosecstreams.github.io/index.md") (lit "/")) 1
  = Some (lit "index.md").
Proof.
  assert (In (EvAdd (lit "index.md") None)
            (events (eventsubStatus (demo_request "ON:acme")
                       (demo_ready "&nbsp; | `acme` | x")))) as Hin
    by (vm_compute; auto 40).
  split; [exact Hin|].
  exact (@every_library_call_is_on_target demoLib
           (demo_request "ON:acme") (demo_ready "&nbsp; | `acme` | x")
           (EvAdd (lit "index.md") None) Hin).
Defined.
